(** * The Trillian log client of rekor ([pkg/api/trillian_client.go])

    A shallow embedding of the client and of the tree bootstrap routine.
    The remote log authority, the root decoder and the Merkle proof verifier
    are external collaborators of the file: they are taken as parameters,
    and every interaction with them is recorded in a trace of events, so
    that statements such as "one remote call", "under a deadline" or
    "without running the verifier" can be written down and proved. *)

From Stdlib Require Import ZArith List String Bool Lia.
From Stdlib Require Import Strings.Byte.
Import ListNotations.
Local Open Scope Z_scope.

(** ** Go base types *)

(** [[]byte] *)
Definition bytes := list byte.

(** [int64(x)] for [x : uint64]: the same 64 bits, read as two's complement. *)
Definition int64_of_uint64 (x : Z) : Z :=
  if x <? 2 ^ 63 then x else x - 2 ^ 64.

(** [uint32(x)] for [x : int32], the conversion behind [codes.Code(x)]. *)
Definition uint32_of_int32 (x : Z) : Z := x mod 2 ^ 32.

(** [google.golang.org/grpc/codes]: [type Code uint32] and its constants. *)
Module codes.
Definition Code := Z.
Definition OK : Code := 0.
Definition Canceled : Code := 1.
Definition Unknown : Code := 2.
Definition InvalidArgument : Code := 3.
Definition DeadlineExceeded : Code := 4.
Definition NotFound : Code := 5.
Definition AlreadyExists : Code := 6.
Definition PermissionDenied : Code := 7.
Definition ResourceExhausted : Code := 8.
Definition FailedPrecondition : Code := 9.
Definition Aborted : Code := 10.
Definition OutOfRange : Code := 11.
Definition Unimplemented : Code := 12.
Definition Internal : Code := 13.
Definition Unavailable : Code := 14.
Definition DataLoss : Code := 15.
Definition Unauthenticated : Code := 16.
End codes.

(** A non-nil Go [error].  An error either carries a gRPC status (what a
    gRPC client returns when a call fails or its deadline expires) or it is
    any other error value (a decoding or a verification error). *)
Inductive error : Type :=
| GrpcError (code : codes.Code) (msg : string)
| PlainError (msg : string).

(** [google.golang.org/grpc/status]: [Code(err)] is [OK] for a nil error,
    the status code of an error that carries one, [Unknown] otherwise. *)
Module status.
Definition Code (err : option error) : codes.Code :=
  match err with
  | None => codes.OK
  | Some (GrpcError c _) => c
  | Some (PlainError _) => codes.Unknown
  end.
End status.

(** [time.Duration] counts nanoseconds. *)
Module time.
Definition Duration := Z.
Definition Second : Duration := 1000000000.
Definition Hour : Duration := 3600 * Second.
End time.

(** [context]: the only contexts the file builds are [Background()] and
    [WithTimeout(parent, d)]. *)
Module context.
Inductive Context : Type :=
| Background
| WithTimeout (parent : Context) (d : time.Duration).

(** Time left before the context expires, if it ever does. *)
Fixpoint Deadline (c : Context) : option time.Duration :=
  match c with
  | Background => None
  | WithTimeout p d =>
      match Deadline p with
      | None => Some d
      | Some d' => Some (Z.min d d')
      end
  end.
End context.

(** ** Messages of the Trillian API (the fields the client touches).
    A field of pointer type that may be nil is an [option]. *)

Module LogRootV1.
Record t := mk
  { TreeSize : Z;          (* uint64 *)
    RootHash : bytes;
    TimestampNanos : Z;    (* uint64 *)
    Revision : Z;          (* uint64 *)
    Metadata : bytes }.
(** [types.LogRootV1{}] *)
Definition zero : t := mk 0 [] 0 0 [].
End LogRootV1.

Module SignedLogRoot.
Record t := mk { LogRoot : bytes; LogRootSignature : bytes }.
End SignedLogRoot.

Module GetLatestSignedLogRootRequest.
Record t := mk { LogId : Z; FirstTreeSize : Z }.
End GetLatestSignedLogRootRequest.

Module GetLatestSignedLogRootResponse.
Record t := mk { SignedLogRoot : option SignedLogRoot.t }.
End GetLatestSignedLogRootResponse.

Module LogLeaf.
Record t := mk { MerkleLeafHash : bytes; LeafValue : bytes; LeafIndex : Z }.
End LogLeaf.

(** [google.rpc.Status] *)
Module rpcStatus.
Record t := mk { Code : Z (* int32 *); Message : string }.
(** The generated getter is nil-safe. *)
Definition GetCode (s : option t) : Z :=
  match s with Some s => Code s | None => 0 end.
End rpcStatus.

Module QueuedLogLeaf.
Record t := mk { Leaf : option LogLeaf.t; Status : option rpcStatus.t }.
(** The generated getter is nil-safe. *)
Definition GetStatus (q : option t) : option rpcStatus.t :=
  match q with Some q => Status q | None => None end.
End QueuedLogLeaf.

Module QueueLeafRequest.
Record t := mk { LogId : Z; Leaf : option LogLeaf.t }.
End QueueLeafRequest.

Module QueueLeafResponse.
Record t := mk { QueuedLeaf : option QueuedLogLeaf.t }.
End QueueLeafResponse.

Module GetLeavesByHashRequest.
Record t := mk { LogId : Z; LeafHash : list bytes }.
End GetLeavesByHashRequest.

Module GetLeavesByHashResponse.
Record t := mk { Leaves : list LogLeaf.t }.
End GetLeavesByHashResponse.

Module GetLeavesByIndexRequest.
Record t := mk { LogId : Z; LeafIndex : list Z }.
End GetLeavesByIndexRequest.

Module GetLeavesByIndexResponse.
Record t := mk { Leaves : list LogLeaf.t }.
End GetLeavesByIndexResponse.

Module Proof.
Record t := mk { LeafIndex : Z (* int64 *); Hashes : list bytes }.
Definition GetHashes (p : t) : list bytes := Hashes p.
End Proof.

Module GetInclusionProofByHashRequest.
Record t := mk { LogId : Z; LeafHash : bytes; TreeSize : Z (* int64 *) }.
End GetInclusionProofByHashRequest.

Module GetInclusionProofByHashResponse.
(** The entries of a decoded repeated field are never nil. *)
Record t := mk { Proof : list Proof.t }.
End GetInclusionProofByHashResponse.

Module GetConsistencyProofRequest.
Record t := mk { LogId : Z; FirstTreeSize : Z; SecondTreeSize : Z }.
End GetConsistencyProofRequest.

Module GetConsistencyProofResponse.
Record t := mk { Proof : option Proof.t }.
End GetConsistencyProofResponse.

Inductive TreeType := TreeType_UNKNOWN | TreeType_LOG | TreeType_MAP | TreeType_PREORDERED_LOG.
Inductive HashStrategy := HashStrategy_UNKNOWN | HashStrategy_RFC6962_SHA256.
Inductive HashAlgorithm := DigitallySigned_NONE | DigitallySigned_SHA256.
Inductive SignatureAlgorithm := DigitallySigned_ANONYMOUS | DigitallySigned_RSA | DigitallySigned_ECDSA.
Inductive TreeState := TreeState_UNKNOWN | TreeState_ACTIVE | TreeState_FROZEN.

Definition TreeType_eqb (a b : TreeType) : bool :=
  match a, b with
  | TreeType_UNKNOWN, TreeType_UNKNOWN
  | TreeType_LOG, TreeType_LOG
  | TreeType_MAP, TreeType_MAP
  | TreeType_PREORDERED_LOG, TreeType_PREORDERED_LOG => true
  | _, _ => false
  end.

Module Tree.
Record t := mk
  { TreeId : Z;
    TreeType_ : TreeType;
    HashStrategy_ : HashStrategy;
    HashAlgorithm_ : HashAlgorithm;
    SignatureAlgorithm_ : SignatureAlgorithm;
    TreeState_ : TreeState;
    MaxRootDuration : time.Duration }.
End Tree.

Module ListTreesRequest.
Record t := mk { ShowDeleted : bool }.
Definition zero : t := mk false.
End ListTreesRequest.

Module ListTreesResponse.
(** The entries of a decoded repeated field are never nil. *)
Record t := mk { Tree : list Tree.t }.
End ListTreesResponse.

(** [keyspb.Specification] *)
Inductive KeySpec := Specification_EcdsaParams | Specification_RsaParams.

Module CreateTreeRequest.
Record t := mk { Tree : option Tree.t; KeySpec_ : option KeySpec }.
End CreateTreeRequest.

(** [type Response struct] *)
Module Response.
Record t := mk
  { status : codes.Code;
    getAddResult : option QueueLeafResponse.t;
    getLeafResult : option GetLeavesByHashResponse.t;
    getProofResult : option GetInclusionProofByHashResponse.t;
    getLeafByIndexResult : option GetLeavesByIndexResponse.t;
    getLatestResult : option GetLatestSignedLogRootResponse.t;
    getConsistencyProofResult : option GetConsistencyProofResponse.t }.
(** [Response{}] *)
Definition zero : t := mk codes.OK None None None None None None.
End Response.

(** ** Observable events *)

Inductive event : Type :=
| RpcGetLatestSignedLogRoot (ctx : context.Context) (rqst : GetLatestSignedLogRootRequest.t)
| RpcQueueLeaf (ctx : context.Context) (rqst : QueueLeafRequest.t)
| RpcGetLeavesByHash (ctx : context.Context) (rqst : GetLeavesByHashRequest.t)
| RpcGetLeavesByIndex (ctx : context.Context) (rqst : GetLeavesByIndexRequest.t)
| RpcGetInclusionProofByHash (ctx : context.Context) (rqst : GetInclusionProofByHashRequest.t)
| RpcGetConsistencyProof (ctx : context.Context) (rqst : GetConsistencyProofRequest.t)
| RpcListTrees (ctx : context.Context) (rqst : ListTreesRequest.t)
| RpcCreateTree (ctx : context.Context) (rqst : CreateTreeRequest.t)
| CallInitLog (ctx : context.Context) (tree : option Tree.t)
| CallVerifyInclusionProof (leafIndex treeSize : Z) (hashes : list bytes) (rootHash leafHash : bytes)
| LogPrintln (e : error)
| LogInfof (i j : Z) (hash : bytes)
| LogFatal (e : error).

(** The context a remote call was issued under; [None] for an event that is
    not a remote call. *)
Definition rpc_context (e : event) : option context.Context :=
  match e with
  | RpcGetLatestSignedLogRoot c _ | RpcQueueLeaf c _ | RpcGetLeavesByHash c _
  | RpcGetLeavesByIndex c _ | RpcGetInclusionProofByHash c _
  | RpcGetConsistencyProof c _ | RpcListTrees c _ | RpcCreateTree c _ => Some c
  | _ => None
  end.

Definition is_rpc (e : event) : bool :=
  match rpc_context e with Some _ => true | None => false end.

Definition is_verification (e : event) : bool :=
  match e with CallVerifyInclusionProof _ _ _ _ _ => true | _ => false end.

Definition is_create_tree (e : event) : bool :=
  match e with RpcCreateTree _ _ => true | _ => false end.

(** ** How a Go call ends *)

Inductive outcome (A : Type) : Type :=
| Returned (a : A)     (* the function returns [a] *)
| Panicked             (* run-time panic: nil pointer dereference *)
| Exited.              (* the process was terminated ([Fatal] ends in [os.Exit]) *)
Arguments Returned {A} a.
Arguments Panicked {A}.
Arguments Exited {A}.

(** ** The client, over an arbitrary remote authority *)

Section Client.

(** The state of the world outside the process: the remote log authority,
    its administrative scope, the clock.  It is never inspected, only
    threaded through the calls that cross the process boundary. *)
Variable sigma : Type.

(** A Go function returning a pointer and an [error]: both may be nil. *)
Definition rpc (Rq Rs : Type) : Type :=
  context.Context -> Rq -> sigma -> (option Rs * option error) * sigma.

(** [trillian.TrillianLogClient] (the methods the file calls). *)
Record TrillianLogClient : Type :=
  { GetLatestSignedLogRoot : rpc GetLatestSignedLogRootRequest.t GetLatestSignedLogRootResponse.t;
    QueueLeaf : rpc QueueLeafRequest.t QueueLeafResponse.t;
    GetLeavesByHash : rpc GetLeavesByHashRequest.t GetLeavesByHashResponse.t;
    GetLeavesByIndex : rpc GetLeavesByIndexRequest.t GetLeavesByIndexResponse.t;
    GetInclusionProofByHash : rpc GetInclusionProofByHashRequest.t GetInclusionProofByHashResponse.t;
    GetConsistencyProof : rpc GetConsistencyProofRequest.t GetConsistencyProofResponse.t }.

(** [trillian.TrillianAdminClient] (the methods the file calls). *)
Record TrillianAdminClient : Type :=
  { ListTrees : rpc ListTreesRequest.t ListTreesResponse.t;
    CreateTree : rpc CreateTreeRequest.t Tree.t }.

(** [types.LogRootV1.UnmarshalBinary], run on a zero receiver: the
    receiver after the call and the error. *)
Variable UnmarshalBinary : bytes -> LogRootV1.t * option error.

(** [merkle.NewLogVerifier(rfc6962.DefaultHasher).VerifyInclusionProof]:
    leaf index, tree size, proof hashes, root hash, leaf hash. *)
Variable VerifyInclusionProof : Z -> Z -> list bytes -> bytes -> bytes -> option error.

(** [client.InitLog] of the Trillian client library. *)
Variable InitLog :
  context.Context -> option Tree.t -> TrillianLogClient -> sigma -> option error * sigma.

(** *** The monad of Go calls: outcome, outside world, events emitted *)

Definition Go (A : Type) : Type := sigma -> outcome A * sigma * list event.

Definition ret {A} (a : A) : Go A := fun s => (Returned a, s, []).

Definition bind {A B} (m : Go A) (k : A -> Go B) : Go B :=
  fun s =>
    match m s with
    | (Returned a, s1, tr1) =>
        match k a s1 with (o, s2, tr2) => (o, s2, tr1 ++ tr2) end
    | (Panicked, s1, tr1) => (Panicked, s1, tr1)
    | (Exited, s1, tr1) => (Exited, s1, tr1)
    end.

Definition emit (e : event) : Go unit := fun s => (Returned tt, s, [e]).

(** A call that crosses the process boundary, recorded as [e]. *)
Definition call {A} (e : event) (f : sigma -> A * sigma) : Go A :=
  fun s => match f s with (a, s1) => (Returned a, s1, [e]) end.

(** Reading a field through a pointer: a nil pointer panics. *)
Definition deref {A} (p : option A) : Go A :=
  fun s => match p with
           | Some a => (Returned a, s, [])
           | None => (Panicked, s, [])
           end.

(** [log.Logger.Fatal(err)]: writes the entry, then exits the process. *)
Definition Fatal {A} (e : error) : Go A := fun s => (Exited, s, [LogFatal e]).

Definition outcome_of {A} (r : outcome A * sigma * list event) : outcome A := fst (fst r).
Definition state_of {A} (r : outcome A * sigma * list event) : sigma := snd (fst r).
Definition trace_of {A} (r : outcome A * sigma * list event) : list event := snd r.

Notation "x <- m ;; k" := (bind m (fun x => k))
  (at level 61, m at next level, right associativity).
Notation "' pat <- m ;; k" := (bind m (fun x => match x with pat => k end))
  (at level 61, pat pattern, m at next level, right associativity).
Notation "m ;;; k" := (bind m (fun _ => k))
  (at level 61, right associativity).

(** [type TrillianClient struct] *)
Record TrillianClient : Type :=
  { client : TrillianLogClient;
    logID : Z }.

Definition TrillianClientInstance (c : TrillianLogClient) (tLogID : Z) : TrillianClient :=
  {| client := c; logID := tLogID |}.

Definition timeout20 : context.Context :=
  context.WithTimeout context.Background (20 * time.Second).

(** [func (t *TrillianClient) root() (types.LogRootV1, error)] *)
Definition root (t : TrillianClient) : Go (LogRootV1.t * option error) :=
  let rqst := {| GetLatestSignedLogRootRequest.LogId := logID t;
                 GetLatestSignedLogRootRequest.FirstTreeSize := 0 |} in
  '(resp, err) <- call (RpcGetLatestSignedLogRoot context.Background rqst)
                       (GetLatestSignedLogRoot (client t) context.Background rqst) ;;
  match err with
  | Some e => ret (LogRootV1.zero, Some e)
  | None =>
      resp <- deref resp ;;
      slr <- deref (GetLatestSignedLogRootResponse.SignedLogRoot resp) ;;
      match UnmarshalBinary (SignedLogRoot.LogRoot slr) with
      | (_, Some e) => ret (LogRootV1.zero, Some e)
      | (r, None) => ret (r, None)
      end
  end.

(** [func (t *TrillianClient) addLeaf(byteValue []byte)], returning [*Response] and [error] *)
Definition addLeaf (t : TrillianClient) (byteValue : bytes) : Go (option Response.t * option error) :=
  let leaf := {| LogLeaf.MerkleLeafHash := []; LogLeaf.LeafValue := byteValue; LogLeaf.LeafIndex := 0 |} in
  let rqst := {| QueueLeafRequest.LogId := logID t; QueueLeafRequest.Leaf := Some leaf |} in
  '(resp, err) <- call (RpcQueueLeaf context.Background rqst)
                       (QueueLeaf (client t) context.Background rqst) ;;
  match err with Some e => emit (LogPrintln e) | None => ret tt end ;;;
  r <- deref resp ;;
  ret (Some {| Response.status :=
                 uint32_of_int32
                   (rpcStatus.GetCode (QueuedLogLeaf.GetStatus (QueueLeafResponse.QueuedLeaf r)));
               Response.getAddResult := resp;
               Response.getLeafResult := None;
               Response.getProofResult := None;
               Response.getLeafByIndexResult := None;
               Response.getLatestResult := None;
               Response.getConsistencyProofResult := None |},
       None).

(** [func (t *TrillianClient) getLeafByHash(hashValues [][]byte)], returning [*Response] and [error] *)
Definition getLeafByHash (t : TrillianClient) (hashValues : list bytes) : Go (option Response.t * option error) :=
  let rqst := {| GetLeavesByHashRequest.LogId := logID t;
                 GetLeavesByHashRequest.LeafHash := hashValues |} in
  '(resp, err) <- call (RpcGetLeavesByHash context.Background rqst)
                       (GetLeavesByHash (client t) context.Background rqst) ;;
  match err with Some e => Fatal e | None => ret tt end ;;;
  ret (Some {| Response.status := status.Code err;
               Response.getAddResult := None;
               Response.getLeafResult := resp;
               Response.getProofResult := None;
               Response.getLeafByIndexResult := None;
               Response.getLatestResult := None;
               Response.getConsistencyProofResult := None |},
       None).

(** [func (t *TrillianClient) getLeafByIndex(indexes []int64)], returning [*Response] and [error] *)
Definition getLeafByIndex (t : TrillianClient) (indexes : list Z) : Go (option Response.t * option error) :=
  let ctx := timeout20 in
  let rqst := {| GetLeavesByIndexRequest.LogId := logID t;
                 GetLeavesByIndexRequest.LeafIndex := indexes |} in
  '(resp, err) <- call (RpcGetLeavesByIndex ctx rqst)
                       (GetLeavesByIndex (client t) ctx rqst) ;;
  ret (Some {| Response.status := status.Code err;
               Response.getAddResult := None;
               Response.getLeafResult := None;
               Response.getProofResult := None;
               Response.getLeafByIndexResult := resp;
               Response.getLatestResult := None;
               Response.getConsistencyProofResult := None |},
       None).

(** The inner loop of [getProofByHash]: one [Infof] per hash of a proof. *)
Fixpoint logHashes (i j : Z) (hashes : list bytes) : Go unit :=
  match hashes with
  | [] => ret tt
  | hash :: rest => emit (LogInfof i j hash) ;;; logHashes i (j + 1) rest
  end.

(** A run of the verifier, recorded in the trace. *)
Definition verify (leafIndex treeSize : Z) (hashes : list bytes) (rootHash leafHash : bytes)
  : Go (option error) :=
  emit (CallVerifyInclusionProof leafIndex treeSize hashes rootHash leafHash) ;;;
  ret (VerifyInclusionProof leafIndex treeSize hashes rootHash leafHash).

(** The outer loop of [getProofByHash], from entry [i] on: [Some e] when
    the loop body returns early with the verifier's error [e]. *)
Fixpoint verifyProofs (rt : LogRootV1.t) (hashValue : bytes) (i : Z) (proofs : list Proof.t)
  : Go (option error) :=
  match proofs with
  | [] => ret None
  | proof :: rest =>
      let hashes := Proof.GetHashes proof in
      logHashes i 0 hashes ;;;
      err <- verify (Proof.LeafIndex proof) (int64_of_uint64 (LogRootV1.TreeSize rt))
                    hashes (LogRootV1.RootHash rt) hashValue ;;
      match err with
      | Some e => ret (Some e)
      | None => verifyProofs rt hashValue (i + 1) rest
      end
  end.

(** [func (t *TrillianClient) getProofByHash(hashValue []byte)], returning
    [*Response] and [error] *)
Definition getProofByHash (t : TrillianClient) (hashValue : bytes) : Go (option Response.t * option error) :=
  let ctx := timeout20 in
  '(rt, err) <- root t ;;
  match err with
  | Some e => ret (Some Response.zero, Some e)
  | None =>
      let rqst := {| GetInclusionProofByHashRequest.LogId := logID t;
                     GetInclusionProofByHashRequest.LeafHash := hashValue;
                     GetInclusionProofByHashRequest.TreeSize :=
                       int64_of_uint64 (LogRootV1.TreeSize rt) |} in
      '(resp, err) <- call (RpcGetInclusionProofByHash ctx rqst)
                           (GetInclusionProofByHash (client t) ctx rqst) ;;
      verr <- match resp with
              | Some r => verifyProofs rt hashValue 0 (GetInclusionProofByHashResponse.Proof r)
              | None => ret None
              end ;;
      match verr with
      | Some e => ret (Some Response.zero, Some e)
      | None =>
          ret (Some {| Response.status := status.Code err;
                       Response.getAddResult := None;
                       Response.getLeafResult := None;
                       Response.getProofResult := resp;
                       Response.getLeafByIndexResult := None;
                       Response.getLatestResult := None;
                       Response.getConsistencyProofResult := None |},
               None)
      end
  end.

(** [func (t *TrillianClient) getLatest(leafSizeInt int64)], returning
    [*Response] and [error] *)
Definition getLatest (t : TrillianClient) (leafSizeInt : Z) : Go (option Response.t * option error) :=
  let ctx := timeout20 in
  let rqst := {| GetLatestSignedLogRootRequest.LogId := logID t;
                 GetLatestSignedLogRootRequest.FirstTreeSize := leafSizeInt |} in
  '(resp, err) <- call (RpcGetLatestSignedLogRoot ctx rqst)
                       (GetLatestSignedLogRoot (client t) ctx rqst) ;;
  match err with
  | Some e => ret (None, Some e)
  | None =>
      ret (Some {| Response.status := status.Code err;
                   Response.getAddResult := None;
                   Response.getLeafResult := None;
                   Response.getProofResult := None;
                   Response.getLeafByIndexResult := None;
                   Response.getLatestResult := resp;
                   Response.getConsistencyProofResult := None |},
           None)
  end.

(** [func (t *TrillianClient) getConsistencyProof(firstSize, lastSize int64)],
    returning [*Response] and [error] *)
Definition getConsistencyProof (t : TrillianClient) (firstSize lastSize : Z)
  : Go (option Response.t * option error) :=
  let ctx := timeout20 in
  let rqst := {| GetConsistencyProofRequest.LogId := logID t;
                 GetConsistencyProofRequest.FirstTreeSize := firstSize;
                 GetConsistencyProofRequest.SecondTreeSize := lastSize |} in
  '(resp, err) <- call (RpcGetConsistencyProof ctx rqst)
                       (GetConsistencyProof (client t) ctx rqst) ;;
  match err with
  | Some e => ret (None, Some e)
  | None =>
      ret (Some {| Response.status := status.Code err;
                   Response.getAddResult := None;
                   Response.getLeafResult := None;
                   Response.getProofResult := None;
                   Response.getLeafByIndexResult := None;
                   Response.getLatestResult := None;
                   Response.getConsistencyProofResult := resp |},
           None)
  end.

(** The loop of [createAndInitTree]: the first tree of type LOG. *)
Fixpoint firstLogTree (trees : list Tree.t) : option Tree.t :=
  match trees with
  | [] => None
  | t :: rest =>
      if TreeType_eqb (Tree.TreeType_ t) TreeType_LOG then Some t
      else firstLogTree rest
  end.

(** The tree [createAndInitTree] asks the authority to create. *)
Definition newLogTree : Tree.t :=
  {| Tree.TreeId := 0;
     Tree.TreeType_ := TreeType_LOG;
     Tree.HashStrategy_ := HashStrategy_RFC6962_SHA256;
     Tree.HashAlgorithm_ := DigitallySigned_SHA256;
     Tree.SignatureAlgorithm_ := DigitallySigned_ECDSA;
     Tree.TreeState_ := TreeState_ACTIVE;
     Tree.MaxRootDuration := time.Hour |}.

(** [func createAndInitTree(ctx, adminClient, logClient)], returning
    [*trillian.Tree] and [error] *)
Definition createAndInitTree (ctx : context.Context)
           (adminClient : TrillianAdminClient) (logClient : TrillianLogClient)
  : Go (option Tree.t * option error) :=
  (* First look for and use an existing tree *)
  '(trees, err) <- call (RpcListTrees ctx ListTreesRequest.zero)
                        (ListTrees adminClient ctx ListTreesRequest.zero) ;;
  match err with
  | Some e => ret (None, Some e)
  | None =>
      trees <- deref trees ;;
      match firstLogTree (ListTreesResponse.Tree trees) with
      | Some t => ret (Some t, None)
      | None =>
          (* Otherwise create and initialize one *)
          let rqst := {| CreateTreeRequest.Tree := Some newLogTree;
                         CreateTreeRequest.KeySpec_ := Some Specification_EcdsaParams |} in
          '(t, err) <- call (RpcCreateTree ctx rqst) (CreateTree adminClient ctx rqst) ;;
          match err with
          | Some e => ret (None, Some e)
          | None =>
              ierr <- call (CallInitLog ctx t) (InitLog ctx t logClient) ;;
              match ierr with
              | Some e => ret (None, Some e)
              | None => ret (t, None)
              end
          end
      end
  end.

End Client.

Arguments Go sigma A : clear implicits.
Arguments GetLatestSignedLogRoot {sigma} _.
Arguments QueueLeaf {sigma} _.
Arguments GetLeavesByHash {sigma} _.
Arguments GetLeavesByIndex {sigma} _.
Arguments GetInclusionProofByHash {sigma} _.
Arguments GetConsistencyProof {sigma} _.
Arguments ListTrees {sigma} _.
Arguments CreateTree {sigma} _.
Arguments client {sigma} _.
Arguments logID {sigma} _.
Arguments TrillianClientInstance {sigma} _ _.
Arguments ret {sigma A} _ _.
Arguments bind {sigma A B} _ _ _.
Arguments emit {sigma} _ _.
Arguments call {sigma A} _ _ _.
Arguments deref {sigma A} _ _.
Arguments Fatal {sigma A} _ _.
Arguments outcome_of {sigma A} _.
Arguments state_of {sigma A} _.
Arguments trace_of {sigma A} _.
Arguments root {sigma} _ _ _.
Arguments addLeaf {sigma} _ _ _.
Arguments getLeafByHash {sigma} _ _ _.
Arguments getLeafByIndex {sigma} _ _ _.
Arguments verify {sigma} _ _ _ _ _ _ _.
Arguments verifyProofs {sigma} _ _ _ _ _ _.
Arguments logHashes {sigma} _ _ _ _.
Arguments getProofByHash {sigma} _ _ _ _ _.
Arguments getLatest {sigma} _ _ _.
Arguments getConsistencyProof {sigma} _ _ _ _.
Arguments createAndInitTree {sigma} _ _ _ _ _.

(** ** An in-memory authority

    A small stand-in for the remote side, used to run the client on
    concrete inputs: a list of trees, a set of queued leaf values, one
    signed root, one list of proofs, and a transport that may be down or
    slower than the caller's deadline. *)

Module Stub.

Record state : Type :=
  { trees : list Tree.t;
    nextId : Z;
    queued : list bytes;
    rootBlob : bytes;
    proofs : list Proof.t;
    latency : time.Duration;
    reachable : bool;
    initFails : bool }.

Fixpoint bytes_eqb (a b : bytes) : bool :=
  match a, b with
  | [], [] => true
  | x :: a', y :: b' => Byte.eqb x y && bytes_eqb a' b'
  | _, _ => false
  end.

(** What the transport does before the authority answers: [Unavailable]
    when it is down, [DeadlineExceeded] when the answer would come after
    the context expires. *)
Definition transport (ctx : context.Context) (s : state) : option error :=
  if negb (reachable s) then Some (GrpcError codes.Unavailable "connection refused")
  else match context.Deadline ctx with
       | Some d => if d <? latency s
                   then Some (GrpcError codes.DeadlineExceeded "context deadline exceeded")
                   else None
       | None => None
       end.

Definition answer {Rq Rs} (f : Rq -> state -> Rs * state) : rpc state Rq Rs :=
  fun ctx rq s =>
    match transport ctx s with
    | Some e => ((None, Some e), s)
    | None => let '(rs, s') := f rq s in ((Some rs, None), s')
    end.

Definition queueLeaf (rq : QueueLeafRequest.t) (s : state) : QueueLeafResponse.t * state :=
  let v := match QueueLeafRequest.Leaf rq with Some l => LogLeaf.LeafValue l | None => [] end in
  if existsb (bytes_eqb v) (queued s)
  then ({| QueueLeafResponse.QueuedLeaf :=
             Some {| QueuedLogLeaf.Leaf := QueueLeafRequest.Leaf rq;
                     QueuedLogLeaf.Status := Some {| rpcStatus.Code := 6;
                                                     rpcStatus.Message := "already exists" |} |} |},
        s)
  else ({| QueueLeafResponse.QueuedLeaf :=
             Some {| QueuedLogLeaf.Leaf := QueueLeafRequest.Leaf rq;
                     QueuedLogLeaf.Status := None |} |},
        {| trees := trees s; nextId := nextId s; queued := v :: queued s;
           rootBlob := rootBlob s; proofs := proofs s; latency := latency s;
           reachable := reachable s; initFails := initFails s |}).

Definition logClient : TrillianLogClient state :=
  {| GetLatestSignedLogRoot :=
       answer (fun _ s =>
         ({| GetLatestSignedLogRootResponse.SignedLogRoot :=
               Some {| SignedLogRoot.LogRoot := rootBlob s;
                       SignedLogRoot.LogRootSignature := [] |} |}, s));
     QueueLeaf := answer queueLeaf;
     GetLeavesByHash :=
       answer (fun _ s => ({| GetLeavesByHashResponse.Leaves := [] |}, s));
     GetLeavesByIndex :=
       answer (fun _ s => ({| GetLeavesByIndexResponse.Leaves := [] |}, s));
     GetInclusionProofByHash :=
       answer (fun _ s => ({| GetInclusionProofByHashResponse.Proof := proofs s |}, s));
     GetConsistencyProof :=
       answer (fun _ s => ({| GetConsistencyProofResponse.Proof :=
                                Some {| Proof.LeafIndex := 0; Proof.Hashes := [] |} |}, s)) |}.

(** The administrative side keeps its trees in creation order and gives a
    new tree the next free identifier. *)
Definition createTree (rq : CreateTreeRequest.t) (s : state) : Tree.t * state :=
  let spec := match CreateTreeRequest.Tree rq with Some t => t | None => newLogTree end in
  let t := {| Tree.TreeId := nextId s;
              Tree.TreeType_ := Tree.TreeType_ spec;
              Tree.HashStrategy_ := Tree.HashStrategy_ spec;
              Tree.HashAlgorithm_ := Tree.HashAlgorithm_ spec;
              Tree.SignatureAlgorithm_ := Tree.SignatureAlgorithm_ spec;
              Tree.TreeState_ := Tree.TreeState_ spec;
              Tree.MaxRootDuration := Tree.MaxRootDuration spec |} in
  (t, {| trees := trees s ++ [t]; nextId := nextId s + 1; queued := queued s;
         rootBlob := rootBlob s; proofs := proofs s; latency := latency s;
         reachable := reachable s; initFails := initFails s |}).

Definition adminClient : TrillianAdminClient state :=
  {| ListTrees := answer (fun _ s => ({| ListTreesResponse.Tree := trees s |}, s));
     CreateTree := answer createTree |}.

Definition initLog (ctx : context.Context) (t : option Tree.t)
           (_ : TrillianLogClient state) (s : state) : option error * state :=
  if initFails s then (Some (PlainError "could not initialise the log"), s) else (None, s).

(** A root blob is one byte of tree size followed by the root hash. *)
Definition unmarshalBinary (blob : bytes) : LogRootV1.t * option error :=
  match blob with
  | [] => (LogRootV1.zero, Some (PlainError "short root blob"))
  | n :: h => (LogRootV1.mk (Z.of_N (Byte.to_N n)) h 0 0 [], None)
  end.

(** Inclusion in a tree of one leaf: the proof is empty and the root is
    the leaf hash.  Larger trees are rejected. *)
Definition verifyInclusionProof (leafIndex treeSize : Z) (hashes : list bytes)
           (rootHash leafHash : bytes) : option error :=
  if (leafIndex =? 0) && (treeSize =? 1)
     && match hashes with [] => true | _ => false end
     && bytes_eqb rootHash leafHash
  then None
  else Some (PlainError "calculated root does not match").

(** An empty, reachable authority that answers at once. *)
Definition fresh : state :=
  {| trees := []; nextId := 1; queued := []; rootBlob := []; proofs := [];
     latency := 0; reachable := true; initFails := false |}.

(** The transport is down. *)
Definition down : state :=
  {| trees := []; nextId := 1; queued := []; rootBlob := []; proofs := [];
     latency := 0; reachable := false; initFails := false |}.

(** The authority takes 30 seconds to answer. *)
Definition slow : state :=
  {| trees := []; nextId := 1; queued := []; rootBlob := []; proofs := [];
     latency := 30 * time.Second; reachable := true; initFails := false |}.

Definition leafA : bytes := [x61].
Definition leafB : bytes := [x62].

(** A log that holds the one leaf [leafA]: its root hash is that leaf hash,
    and the inclusion proof of the leaf is empty. *)
Definition oneLeaf : state :=
  {| trees := []; nextId := 1; queued := [leafA]; rootBlob := x01 :: leafA;
     proofs := [ {| Proof.LeafIndex := 0; Proof.Hashes := [] |} ];
     latency := 0; reachable := true; initFails := false |}.

(** The tree that the first bootstrap of an empty scope creates, and the
    scope after it. *)
Definition tree1 : Tree.t :=
  {| Tree.TreeId := 1;
     Tree.TreeType_ := TreeType_LOG;
     Tree.HashStrategy_ := HashStrategy_RFC6962_SHA256;
     Tree.HashAlgorithm_ := DigitallySigned_SHA256;
     Tree.SignatureAlgorithm_ := DigitallySigned_ECDSA;
     Tree.TreeState_ := TreeState_ACTIVE;
     Tree.MaxRootDuration := time.Hour |}.

Definition bootstrapped : state :=
  {| trees := [tree1]; nextId := 2; queued := []; rootBlob := []; proofs := [];
     latency := 0; reachable := true; initFails := false |}.

Definition tc : TrillianClient state := TrillianClientInstance logClient 1.

(** The log of one leaf behind a slow transport. *)
Definition slowOneLeaf : state :=
  {| trees := []; nextId := 1; queued := [leafA]; rootBlob := x01 :: leafA;
     proofs := [ {| Proof.LeafIndex := 0; Proof.Hashes := [] |} ];
     latency := 30 * time.Second; reachable := true; initFails := false |}.

(** The log of one leaf, answering a proof request with three entries of
    which the second is not a proof of the leaf. *)
Definition goodProof : Proof.t := {| Proof.LeafIndex := 0; Proof.Hashes := [] |}.
Definition badProof : Proof.t := {| Proof.LeafIndex := 1; Proof.Hashes := [] |}.

Definition mixedProofs : state :=
  {| trees := []; nextId := 1; queued := [leafA]; rootBlob := x01 :: leafA;
     proofs := [goodProof; badProof; goodProof];
     latency := 0; reachable := true; initFails := false |}.

(** An empty scope in which the initialisation of a log fails, and the
    same scope once tree 1 has been created there. *)
Definition brokenInit : state :=
  {| trees := []; nextId := 1; queued := []; rootBlob := []; proofs := [];
     latency := 0; reachable := true; initFails := true |}.

Definition halfBootstrapped : state :=
  {| trees := [tree1]; nextId := 2; queued := []; rootBlob := []; proofs := [];
     latency := 0; reachable := true; initFails := true |}.

(** A log client whose root answer carries no signed root. *)
Definition bareLogClient : TrillianLogClient state :=
  {| GetLatestSignedLogRoot :=
       answer (fun _ s => ({| GetLatestSignedLogRootResponse.SignedLogRoot := None |}, s));
     QueueLeaf := QueueLeaf logClient;
     GetLeavesByHash := GetLeavesByHash logClient;
     GetLeavesByIndex := GetLeavesByIndex logClient;
     GetInclusionProofByHash := GetInclusionProofByHash logClient;
     GetConsistencyProof := GetConsistencyProof logClient |}.

(** An administrative client that may list but not create. *)
Definition readOnlyAdmin : TrillianAdminClient state :=
  {| ListTrees := ListTrees adminClient;
     CreateTree := fun _ _ s =>
       ((None, Some (GrpcError codes.PermissionDenied "creation not allowed")), s) |}.

(** An administrative client whose listing comes back empty-handed: no
    answer and no error. *)
Definition silentAdmin : TrillianAdminClient state :=
  {| ListTrees := fun _ _ s => ((None, None), s);
     CreateTree := CreateTree adminClient |}.

Definition tcBare : TrillianClient state := TrillianClientInstance bareLogClient 1.

(** A tree of type MAP. *)
Definition mapTree : Tree.t :=
  {| Tree.TreeId := 7;
     Tree.TreeType_ := TreeType_MAP;
     Tree.HashStrategy_ := HashStrategy_UNKNOWN;
     Tree.HashAlgorithm_ := DigitallySigned_SHA256;
     Tree.SignatureAlgorithm_ := DigitallySigned_ECDSA;
     Tree.TreeState_ := TreeState_ACTIVE;
     Tree.MaxRootDuration := time.Hour |}.

(** A decoder that reads every blob as the root of a tree of 2^63 leaves. *)
Definition unmarshalHuge (blob : bytes) : LogRootV1.t * option error :=
  (LogRootV1.mk (2 ^ 63) blob 0 0 [], None).

End Stub.

(** ** Vocabulary of the statements *)

Section Vocabulary.

Variable sigma : Type.
Variable UnmarshalBinary : bytes -> LogRootV1.t * option error.

(** The request [root] sends. *)
Definition rootRequest (t : TrillianClient sigma) : GetLatestSignedLogRootRequest.t :=
  {| GetLatestSignedLogRootRequest.LogId := logID t;
     GetLatestSignedLogRootRequest.FirstTreeSize := 0 |}.

(** The remote call of [root] failed with [e]. *)
Definition rootCallFails (t : TrillianClient sigma) (s : sigma) (e : error) : Prop :=
  snd (fst (GetLatestSignedLogRoot (client t) context.Background (rootRequest t) s)) = Some e.

(** The remote call of [root] succeeded and the blob it returned was
    refused by the decoder with [e]. *)
Definition rootDecodeFails (t : TrillianClient sigma) (s : sigma) (e : error) : Prop :=
  exists resp slr,
    fst (GetLatestSignedLogRoot (client t) context.Background (rootRequest t) s)
      = (Some resp, None)
    /\ GetLatestSignedLogRootResponse.SignedLogRoot resp = Some slr
    /\ snd (UnmarshalBinary (SignedLogRoot.LogRoot slr)) = Some e.

Variable VerifyInclusionProof : Z -> Z -> list bytes -> bytes -> bytes -> option error.
Variable InitLog :
  context.Context -> option Tree.t -> TrillianLogClient sigma -> sigma -> option error * sigma.

(** The request [addLeaf] sends. *)
Definition queueRequest (t : TrillianClient sigma) (byteValue : bytes) : QueueLeafRequest.t :=
  {| QueueLeafRequest.LogId := logID t;
     QueueLeafRequest.Leaf :=
       Some {| LogLeaf.MerkleLeafHash := []; LogLeaf.LeafValue := byteValue;
               LogLeaf.LeafIndex := 0 |} |}.

(** The request [getLeafByHash] sends. *)
Definition hashRequest (t : TrillianClient sigma) (hashValues : list bytes)
  : GetLeavesByHashRequest.t :=
  {| GetLeavesByHashRequest.LogId := logID t;
     GetLeavesByHashRequest.LeafHash := hashValues |}.

(** The request [getLeafByIndex] sends. *)
Definition indexRequest (t : TrillianClient sigma) (indexes : list Z)
  : GetLeavesByIndexRequest.t :=
  {| GetLeavesByIndexRequest.LogId := logID t;
     GetLeavesByIndexRequest.LeafIndex := indexes |}.

(** The request [getProofByHash] sends once it holds the root [rt]. *)
Definition proofRequest (t : TrillianClient sigma) (rt : LogRootV1.t) (hashValue : bytes)
  : GetInclusionProofByHashRequest.t :=
  {| GetInclusionProofByHashRequest.LogId := logID t;
     GetInclusionProofByHashRequest.LeafHash := hashValue;
     GetInclusionProofByHashRequest.TreeSize := int64_of_uint64 (LogRootV1.TreeSize rt) |}.

(** The request [getLatest] sends. *)
Definition latestRequest (t : TrillianClient sigma) (leafSizeInt : Z)
  : GetLatestSignedLogRootRequest.t :=
  {| GetLatestSignedLogRootRequest.LogId := logID t;
     GetLatestSignedLogRootRequest.FirstTreeSize := leafSizeInt |}.

(** The request [getConsistencyProof] sends. *)
Definition consistencyRequest (t : TrillianClient sigma) (firstSize lastSize : Z)
  : GetConsistencyProofRequest.t :=
  {| GetConsistencyProofRequest.LogId := logID t;
     GetConsistencyProofRequest.FirstTreeSize := firstSize;
     GetConsistencyProofRequest.SecondTreeSize := lastSize |}.

(** The run of the verifier on entry [p] against the root [rt]. *)
Definition verificationOf (rt : LogRootV1.t) (hashValue : bytes) (p : Proof.t) : event :=
  CallVerifyInclusionProof (Proof.LeafIndex p) (int64_of_uint64 (LogRootV1.TreeSize rt))
                           (Proof.Hashes p) (LogRootV1.RootHash rt) hashValue.

(** What the verifier answers on entry [p] against the root [rt]. *)
Definition verdict (rt : LogRootV1.t) (hashValue : bytes) (p : Proof.t) : option error :=
  VerifyInclusionProof (Proof.LeafIndex p) (int64_of_uint64 (LogRootV1.TreeSize rt))
                       (Proof.Hashes p) (LogRootV1.RootHash rt) hashValue.

Definition verifies (rt : LogRootV1.t) (hashValue : bytes) (p : Proof.t) : Prop :=
  verdict rt hashValue p = None.

(** The error of the first entry the verifier refuses. *)
Fixpoint firstFailure (rt : LogRootV1.t) (hashValue : bytes) (proofs : list Proof.t)
  : option error :=
  match proofs with
  | [] => None
  | p :: rest =>
      match verdict rt hashValue p with
      | Some e => Some e
      | None => firstFailure rt hashValue rest
      end
  end.

(** The entries the loop reaches: all of them up to and including the
    first one the verifier refuses. *)
Fixpoint examined (rt : LogRootV1.t) (hashValue : bytes) (proofs : list Proof.t)
  : list Proof.t :=
  match proofs with
  | [] => []
  | p :: rest =>
      match verdict rt hashValue p with
      | Some _ => [p]
      | None => p :: examined rt hashValue rest
      end
  end.

(** The entries of an answer; a nil answer has none. *)
Definition entries (resp : option GetInclusionProofByHashResponse.t) : list Proof.t :=
  match resp with
  | Some r => GetInclusionProofByHashResponse.Proof r
  | None => []
  end.

Definition is_root_fetch (e : event) : bool :=
  match e with RpcGetLatestSignedLogRoot _ _ => true | _ => false end.

(** What the caller of this file relies on from the administrative side
    of the authority, in one scope: [visible s] are the trees of the
    scope; a listing that succeeds shows them and changes nothing; a
    creation that succeeds adds the tree it returns, of the requested
    type, somewhere among them; initialisation adds and removes none. *)
Record AdminScope (admin : TrillianAdminClient sigma) (visible : sigma -> list Tree.t)
  : Prop :=
  { list_shows : forall ctx rq s resp s1,
      ListTrees admin ctx rq s = ((Some resp, None), s1) ->
      ListTreesResponse.Tree resp = visible s /\ visible s1 = visible s;
    create_adds : forall ctx rq s t s1,
      CreateTree admin ctx rq s = ((Some t, None), s1) ->
      (exists l1 l2, visible s = l1 ++ l2 /\ visible s1 = l1 ++ t :: l2)
      /\ (forall spec, CreateTreeRequest.Tree rq = Some spec ->
                       Tree.TreeType_ t = Tree.TreeType_ spec);
    init_keeps : forall ctx t lc s e s1,
      InitLog ctx t lc s = (e, s1) -> visible s1 = visible s }.

(** The request [createAndInitTree] sends when it creates a tree. *)
Definition createRequest : CreateTreeRequest.t :=
  {| CreateTreeRequest.Tree := Some newLogTree;
     CreateTreeRequest.KeySpec_ := Some Specification_EcdsaParams |}.

(** The log identifier a request to the log authority carries; [None] for
    an event that is not such a request. *)
Definition request_logId (e : event) : option Z :=
  match e with
  | RpcGetLatestSignedLogRoot _ rq => Some (GetLatestSignedLogRootRequest.LogId rq)
  | RpcQueueLeaf _ rq => Some (QueueLeafRequest.LogId rq)
  | RpcGetLeavesByHash _ rq => Some (GetLeavesByHashRequest.LogId rq)
  | RpcGetLeavesByIndex _ rq => Some (GetLeavesByIndexRequest.LogId rq)
  | RpcGetInclusionProofByHash _ rq => Some (GetInclusionProofByHashRequest.LogId rq)
  | RpcGetConsistencyProof _ rq => Some (GetConsistencyProofRequest.LogId rq)
  | _ => None
  end.

Definition is_init_log (e : event) : bool :=
  match e with CallInitLog _ _ => true | _ => false end.

(** Every request to the log authority in [tr] carries the identifier [id]. *)
Definition all_for_log (id : Z) (tr : list event) : Prop :=
  forall e id', In e tr -> request_logId e = Some id' -> id' = id.

End Vocabulary.

Arguments rootRequest {sigma} _.
Arguments rootCallFails {sigma} _ _ _.
Arguments rootDecodeFails {sigma} _ _ _ _.
Arguments queueRequest {sigma} _ _.
Arguments hashRequest {sigma} _ _.
Arguments indexRequest {sigma} _ _.
Arguments proofRequest {sigma} _ _ _.
Arguments latestRequest {sigma} _ _.
Arguments consistencyRequest {sigma} _ _ _.
Arguments AdminScope {sigma} _ _ _.
Arguments all_for_log _ _ : clear implicits.
Arguments list_shows {sigma InitLog admin visible} _ _ _ _ _ _ _.
Arguments create_adds {sigma InitLog admin visible} _ _ _ _ _ _ _.
Arguments init_keeps {sigma InitLog admin visible} _ _ _ _ _ _ _ _.

(** ** Properties *)

(** Unfolds the monad so that a run becomes a case analysis on what the
    outside world answered. *)
Ltac unfold_go :=
  unfold outcome_of, state_of, trace_of, bind, call, ret, emit, deref, Fatal in *.

Section GoLaws.

Variable sigma : Type.

Lemma bind_returned {A B} (m : Go sigma A) (k : A -> Go sigma B) s a s1 tr1 :
  m s = (Returned a, s1, tr1) ->
  bind m k s = (outcome_of (k a s1), state_of (k a s1), tr1 ++ trace_of (k a s1)).
Proof.
  intro H. unfold bind, outcome_of, state_of, trace_of. rewrite H.
  destruct (k a s1) as [[o s2] tr2]. reflexivity.
Qed.

Lemma bind_panicked {A B} (m : Go sigma A) (k : A -> Go sigma B) s s1 tr1 :
  m s = (Panicked, s1, tr1) -> bind m k s = (Panicked, s1, tr1).
Proof. intro H. unfold bind. rewrite H. reflexivity. Qed.

Lemma bind_exited {A B} (m : Go sigma A) (k : A -> Go sigma B) s s1 tr1 :
  m s = (Exited, s1, tr1) -> bind m k s = (Exited, s1, tr1).
Proof. intro H. unfold bind. rewrite H. reflexivity. Qed.

(** What a computation emits comes before what its continuation emits. *)
Lemma bind_trace_prefix {A B} (m : Go sigma A) (k : A -> Go sigma B) s :
  exists tl, trace_of (bind m k s) = trace_of (m s) ++ tl.
Proof.
  destruct (m s) as [[o s1] tr1] eqn:H. destruct o as [a| |].
  - rewrite (bind_returned _ _ _ _ _ _ H). eexists. reflexivity.
  - rewrite (bind_panicked _ _ _ _ _ H). exists []. symmetry. apply app_nil_r.
  - rewrite (bind_exited _ _ _ _ _ H). exists []. symmetry. apply app_nil_r.
Qed.

End GoLaws.

Arguments bind_returned {sigma A B} _ _ _ _ _ _ _.
Arguments bind_panicked {sigma A B} _ _ _ _ _ _.
Arguments bind_exited {sigma A B} _ _ _ _ _ _.
Arguments bind_trace_prefix {sigma A B} _ _ _.

Section RootProperties.

Variable sigma : Type.
Variable UnmarshalBinary : bytes -> LogRootV1.t * option error.

Lemma root_trace (t : TrillianClient sigma) (s : sigma) :
  trace_of (root UnmarshalBinary t s)
  = [RpcGetLatestSignedLogRoot context.Background (rootRequest t)].
Proof.
  unfold root, rootRequest. unfold_go.
  destruct (GetLatestSignedLogRoot _ _ _ s) as [[resp err] s1].
  destruct err as [e|]; [reflexivity|].
  destruct resp as [resp|]; [|reflexivity].
  destruct (GetLatestSignedLogRootResponse.SignedLogRoot resp) as [slr|]; [|reflexivity].
  destruct (UnmarshalBinary _) as [r [e|]]; reflexivity.
Qed.

(** C9. [root] issues exactly one remote call (no retry); it returns an
    error exactly when that call fails or the returned root blob does not
    decode; and whenever it returns an error, the root it returns with it
    is the empty [LogRootV1]. *)
Theorem root_single_call_error_iff (t : TrillianClient sigma) (s : sigma) :
  let r := root UnmarshalBinary t s in
  trace_of r = [RpcGetLatestSignedLogRoot context.Background (rootRequest t)]
  /\ List.length (filter is_rpc (trace_of r)) = 1%nat
  /\ (forall e, (exists rt, outcome_of r = Returned (rt, Some e))
                <-> (rootCallFails t s e \/ rootDecodeFails UnmarshalBinary t s e))
  /\ (forall rt e, outcome_of r = Returned (rt, Some e) -> rt = LogRootV1.zero).
Proof.
  intro r. subst r.
  split; [apply root_trace|].
  split; [rewrite root_trace; reflexivity|].
  unfold rootCallFails, rootDecodeFails, root, rootRequest. unfold_go.
  destruct (GetLatestSignedLogRoot _ _ _ s) as [[resp err] s1]. simpl.
  destruct err as [e0|]; simpl.
  - split.
    + intro e. split.
      * intros [rt H]. inversion H. now left.
      * intros [H|(resp' & slr & H & _)].
        -- inversion H. now exists LogRootV1.zero.
        -- discriminate H.
    + intros rt e H. now inversion H.
  - destruct resp as [resp|]; simpl.
    + destruct (GetLatestSignedLogRootResponse.SignedLogRoot resp) as [slr|] eqn:Hslr; simpl.
      * destruct (UnmarshalBinary (SignedLogRoot.LogRoot slr)) as [r0 [e0|]] eqn:HU; simpl.
        -- split.
           ++ intro e. split.
              ** intros [rt H]. inversion H. subst. right.
                 exists resp, slr. rewrite HU. auto.
              ** intros [H|(resp' & slr' & H & H1 & H2)]; [discriminate H|].
                 inversion H. subst resp'. rewrite Hslr in H1. inversion H1. subst slr'.
                 rewrite HU in H2. simpl in H2. inversion H2.
                 now exists LogRootV1.zero.
           ++ intros rt e H. now inversion H.
        -- split.
           ++ intro e. split.
              ** intros [rt H]. discriminate H.
              ** intros [H|(resp' & slr' & H & H1 & H2)]; [discriminate H|].
                 inversion H. subst resp'. rewrite Hslr in H1. inversion H1. subst slr'.
                 rewrite HU in H2. discriminate H2.
           ++ intros rt e H. discriminate H.
      * split.
        -- intro e. split.
           ++ intros [rt H]. discriminate H.
           ++ intros [H|(resp' & slr' & H & H1 & H2)]; [discriminate H|].
              inversion H. subst resp'. rewrite Hslr in H1. discriminate H1.
        -- intros rt e H. discriminate H.
    + split.
      * intro e. split.
        -- intros [rt H]. discriminate H.
        -- intros [H|(resp' & slr' & H & _)]; discriminate H.
      * intros rt e H. discriminate H.
Qed.

End RootProperties.

Section LeafProperties.

Variable sigma : Type.
Variable UnmarshalBinary : bytes -> LogRootV1.t * option error.
Variable VerifyInclusionProof : Z -> Z -> list bytes -> bytes -> bytes -> option error.

(** [addLeaf] when the remote call hands back an error and no response:
    the error is printed, then the nil response is dereferenced. *)
Lemma addLeaf_nil_response (t : TrillianClient sigma) (byteValue : bytes)
      (s s1 : sigma) (e : error) :
  QueueLeaf (client t) context.Background (queueRequest t byteValue) s = ((None, Some e), s1) ->
  addLeaf t byteValue s
  = (Panicked, s1, [RpcQueueLeaf context.Background (queueRequest t byteValue); LogPrintln e]).
Proof.
  intro H. unfold addLeaf, queueRequest in *. unfold_go. rewrite H. reflexivity.
Qed.

(** [getLeafByHash] when the remote call hands back an error: the client
    logs it with [Fatal], which ends the process. *)
Lemma getLeafByHash_error_exits (t : TrillianClient sigma) (hashValues : list bytes)
      (s s1 : sigma) (resp : option GetLeavesByHashResponse.t) (e : error) :
  GetLeavesByHash (client t) context.Background (hashRequest t hashValues) s
  = ((resp, Some e), s1) ->
  getLeafByHash t hashValues s
  = (Exited, s1, [RpcGetLeavesByHash context.Background (hashRequest t hashValues); LogFatal e]).
Proof.
  intro H. unfold getLeafByHash, hashRequest in *. unfold_go. rewrite H. reflexivity.
Qed.

(** C10. When the remote [QueueLeaf] call fails (an error and no
    response), [addLeaf] prints the error and then reads the status from
    the absent response: it panics, and returns nothing to its caller,
    neither the error nor a response. *)
Theorem addLeaf_transport_failure_panics (t : TrillianClient sigma) (byteValue : bytes)
        (s s1 : sigma) (e : error) :
  QueueLeaf (client t) context.Background (queueRequest t byteValue) s = ((None, Some e), s1) ->
  let r := addLeaf t byteValue s in
  outcome_of r = Panicked
  /\ trace_of r = [RpcQueueLeaf context.Background (queueRequest t byteValue); LogPrintln e]
  /\ (forall x, outcome_of r <> Returned x).
Proof.
  intros H r. subst r. rewrite (addLeaf_nil_response _ _ _ _ _ H).
  unfold outcome_of, trace_of. simpl. repeat split. intros x Hx. discriminate Hx.
Qed.

(** C4. When the authority answers a submission with the status
    ALREADY_EXISTS, [addLeaf] returns normally: a response whose status
    field is [AlreadyExists] (a code other than [OK] and other than the
    transport codes), the authority's answer attached, and a nil error. *)
Theorem addLeaf_already_exists (t : TrillianClient sigma) (byteValue : bytes)
        (s s1 : sigma) (resp : QueueLeafResponse.t) (err : option error)
        (q : QueuedLogLeaf.t) (st : rpcStatus.t) :
  QueueLeaf (client t) context.Background (queueRequest t byteValue) s
  = ((Some resp, err), s1) ->
  QueueLeafResponse.QueuedLeaf resp = Some q ->
  QueuedLogLeaf.Status q = Some st ->
  rpcStatus.Code st = 6 ->
  exists rsp,
    outcome_of (addLeaf t byteValue s) = Returned (Some rsp, None)
    /\ Response.status rsp = codes.AlreadyExists
    /\ Response.getAddResult rsp = Some resp
    /\ Response.status rsp <> codes.OK
    /\ Response.status rsp <> codes.Unavailable
    /\ Response.status rsp <> codes.DeadlineExceeded
    /\ Response.status rsp <> codes.Unknown.
Proof.
  intros H Hq Hst Hc. unfold addLeaf, queueRequest in *. unfold_go. rewrite H.
  destruct err as [e|]; simpl; rewrite Hq; simpl; rewrite Hst; simpl; rewrite Hc;
    (eexists; split; [reflexivity|]; simpl;
     unfold codes.AlreadyExists, codes.OK, codes.Unavailable, codes.DeadlineExceeded,
       codes.Unknown, uint32_of_int32;
     repeat split; try reflexivity; intro X; discriminate X).
Qed.

(** C3 (how the code departs from it). A failed remote call is not always
    returned to the caller: on a failed lookup by hash the process exits,
    and on a failed submission with no response the call panics. *)
Theorem failures_not_always_returned (t : TrillianClient sigma) (s s1 : sigma) (e : error) :
  (forall hashValues resp,
      GetLeavesByHash (client t) context.Background (hashRequest t hashValues) s
      = ((resp, Some e), s1) ->
      outcome_of (getLeafByHash t hashValues s) = Exited
      /\ In (LogFatal e) (trace_of (getLeafByHash t hashValues s)))
  /\ (forall byteValue,
      QueueLeaf (client t) context.Background (queueRequest t byteValue) s
      = ((None, Some e), s1) ->
      outcome_of (addLeaf t byteValue s) = Panicked).
Proof.
  split.
  - intros hashValues resp H. rewrite (getLeafByHash_error_exits _ _ _ _ _ _ H).
    unfold outcome_of, trace_of. simpl. auto.
  - intros byteValue H. rewrite (addLeaf_nil_response _ _ _ _ _ H). reflexivity.
Qed.

(** C6 (how the code departs from it). The root fetch and the lookup by
    hash are issued under [context.Background()], which never expires;
    this holds of the root fetch inside [getProofByHash] as well, although
    a 20-second context has been built by then. *)
Theorem root_and_getLeafByHash_have_no_deadline
        (t : TrillianClient sigma) (hashValues : list bytes) (hashValue : bytes) (s : sigma) :
  context.Deadline context.Background = None
  /\ trace_of (root UnmarshalBinary t s)
     = [RpcGetLatestSignedLogRoot context.Background (rootRequest t)]
  /\ (exists tl, trace_of (getLeafByHash t hashValues s)
                 = RpcGetLeavesByHash context.Background (hashRequest t hashValues) :: tl)
  /\ (exists tl, trace_of (getProofByHash UnmarshalBinary VerifyInclusionProof t hashValue s)
                 = RpcGetLatestSignedLogRoot context.Background (rootRequest t) :: tl).
Proof.
  split; [reflexivity|].
  split; [apply root_trace|].
  split.
  - unfold getLeafByHash, hashRequest. unfold_go.
    destruct (GetLeavesByHash _ _ _ s) as [[resp err] s1].
    destruct err; simpl; eexists; reflexivity.
  - unfold getProofByHash.
    match goal with
    | |- context [bind ?m ?k s] => destruct (bind_trace_prefix m k s) as [tl Htl]
    end.
    rewrite Htl, root_trace. exists tl. reflexivity.
Qed.

(** The operations that do attach the 20-second deadline. *)
Lemma deadline_attached (t : TrillianClient sigma) (s : sigma)
      (indexes : list Z) (leafSizeInt firstSize lastSize : Z) :
  context.Deadline timeout20 = Some (20 * time.Second)
  /\ trace_of (getLeafByIndex t indexes s)
     = [RpcGetLeavesByIndex timeout20 (indexRequest t indexes)]
  /\ trace_of (getLatest t leafSizeInt s)
     = [RpcGetLatestSignedLogRoot timeout20 (latestRequest t leafSizeInt)]
  /\ trace_of (getConsistencyProof t firstSize lastSize s)
     = [RpcGetConsistencyProof timeout20 (consistencyRequest t firstSize lastSize)].
Proof.
  split; [reflexivity|].
  unfold getLeafByIndex, getLatest, getConsistencyProof,
    indexRequest, latestRequest, consistencyRequest.
  unfold_go. repeat split.
  - destruct (GetLeavesByIndex _ _ _ s) as [[resp err] s1]. reflexivity.
  - destruct (GetLatestSignedLogRoot _ _ _ s) as [[resp err] s1]. destruct err; reflexivity.
  - destruct (GetConsistencyProof _ _ _ s) as [[resp err] s1]. destruct err; reflexivity.
Qed.

(** C7. [getLeafByIndex] issues its one remote call under a context that
    expires after 20 seconds.  When the call comes back with the
    deadline-exceeded status, the result carries [DeadlineExceeded] in its
    status field, a code other than [NotFound] and [OK]; a failure that
    the authority reports with any other code [c] gives the status [c]. *)
Theorem getLeafByIndex_deadline_timeout (t : TrillianClient sigma) (indexes : list Z)
        (s : sigma) :
  let r := getLeafByIndex t indexes s in
  trace_of r = [RpcGetLeavesByIndex timeout20 (indexRequest t indexes)]
  /\ context.Deadline timeout20 = Some (20 * time.Second)
  /\ (forall resp msg s1,
         GetLeavesByIndex (client t) timeout20 (indexRequest t indexes) s
         = ((resp, Some (GrpcError codes.DeadlineExceeded msg)), s1) ->
         exists rsp,
           outcome_of r = Returned (Some rsp, None)
           /\ Response.status rsp = codes.DeadlineExceeded
           /\ Response.status rsp <> codes.NotFound
           /\ Response.status rsp <> codes.OK)
  /\ (forall resp c msg s1,
         GetLeavesByIndex (client t) timeout20 (indexRequest t indexes) s
         = ((resp, Some (GrpcError c msg)), s1) ->
         c <> codes.DeadlineExceeded ->
         exists rsp,
           outcome_of r = Returned (Some rsp, None)
           /\ Response.status rsp = c
           /\ Response.status rsp <> codes.DeadlineExceeded).
Proof.
  intro r. subst r.
  split; [apply (deadline_attached t s indexes 0 0 0)|].
  split; [reflexivity|].
  unfold getLeafByIndex, indexRequest. unfold_go.
  split.
  - intros resp msg s1 H. rewrite H. simpl. eexists. split; [reflexivity|]. simpl.
    unfold codes.DeadlineExceeded, codes.NotFound, codes.OK.
    repeat split; intro X; discriminate X.
  - intros resp c msg s1 H Hc. rewrite H. simpl. eexists. split; [reflexivity|]. simpl.
    auto.
Qed.

(** C8. For all sizes, [getConsistencyProof] issues one remote call and
    nothing else (in particular no run of the verifier): on an error it
    returns the error, otherwise it returns the authority's answer as it
    came, with status [OK]. *)
Theorem getConsistencyProof_not_verified (t : TrillianClient sigma) (firstSize lastSize : Z)
        (s : sigma) :
  let r := getConsistencyProof t firstSize lastSize s in
  let a := fst (GetConsistencyProof (client t) timeout20
                                    (consistencyRequest t firstSize lastSize) s) in
  trace_of r = [RpcGetConsistencyProof timeout20 (consistencyRequest t firstSize lastSize)]
  /\ filter is_verification (trace_of r) = []
  /\ outcome_of r
     = Returned
         match snd a with
         | Some e => (None, Some e)
         | None =>
             (Some {| Response.status := codes.OK;
                      Response.getAddResult := None;
                      Response.getLeafResult := None;
                      Response.getProofResult := None;
                      Response.getLeafByIndexResult := None;
                      Response.getLatestResult := None;
                      Response.getConsistencyProofResult := fst a |},
              None)
         end.
Proof.
  intros r a. subst r a.
  unfold getConsistencyProof, consistencyRequest. unfold_go.
  destruct (GetConsistencyProof _ _ _ s) as [[resp err] s1].
  destruct err as [e|]; simpl; repeat split; reflexivity.
Qed.

End LeafProperties.

Section ProofProperties.

Variable sigma : Type.
Variable UnmarshalBinary : bytes -> LogRootV1.t * option error.
Variable VerifyInclusionProof : Z -> Z -> list bytes -> bytes -> bytes -> option error.

Local Abbreviation V := VerifyInclusionProof.

(** Logging the hashes of a proof returns, touches nothing outside and
    neither calls the authority nor runs the verifier. *)
Lemma logHashes_run (i : Z) (hashes : list bytes) :
  forall (j : Z) (s : sigma),
  exists tr, logHashes i j hashes s = (Returned tt, s, tr)
             /\ filter is_verification tr = [] /\ filter is_rpc tr = [].
Proof.
  induction hashes as [|hash rest IH]; intros j s.
  - exists []. repeat split.
  - destruct (IH (j + 1) s) as (tr & Hrun & Hv & Hr).
    exists (LogInfof i j hash :: tr). simpl.
    unfold bind, emit. rewrite Hrun. simpl. rewrite Hv, Hr. repeat split.
Qed.

(** The loop over the proof entries: it returns the error of the first
    entry that the verifier refuses, after running the verifier on exactly
    the entries up to that one, in order. *)
Lemma verifyProofs_run (rt : LogRootV1.t) (hashValue : bytes) (proofs : list Proof.t) :
  forall (i : Z) (s : sigma),
  exists tr,
    verifyProofs VerifyInclusionProof rt hashValue i proofs s
    = (Returned (firstFailure V rt hashValue proofs), s, tr)
    /\ filter is_verification tr
       = map (verificationOf rt hashValue) (examined V rt hashValue proofs)
    /\ filter is_rpc tr = [].
Proof.
  induction proofs as [|p rest IH]; intros i s.
  - exists []. repeat split.
  - destruct (logHashes_run i (Proof.GetHashes p) 0 s) as (tr0 & Hlog & Hv0 & Hr0).
    destruct (IH (i + 1) s) as (tr1 & Hrest & Hv1 & Hr1).
    assert (Hverify :
              verify V (Proof.LeafIndex p) (int64_of_uint64 (LogRootV1.TreeSize rt))
                     (Proof.GetHashes p) (LogRootV1.RootHash rt) hashValue s
              = (Returned (verdict V rt hashValue p), s, [verificationOf rt hashValue p]))
      by reflexivity.
    cbn [verifyProofs firstFailure examined].
    rewrite (bind_returned _ _ _ _ _ _ Hlog).
    rewrite (bind_returned _ _ _ _ _ _ Hverify).
    destruct (verdict V rt hashValue p) as [e|] eqn:HV.
    + eexists. split; [reflexivity|].
      unfold trace_of, ret. simpl.
      rewrite !filter_app, Hv0, Hr0. simpl. repeat split.
    + rewrite Hrest. eexists. split; [reflexivity|].
      unfold trace_of. simpl.
      rewrite !filter_app, Hv0, Hr0. simpl. rewrite Hv1, Hr1. repeat split.
Qed.

Lemma firstFailure_none_iff (rt : LogRootV1.t) (hashValue : bytes) (proofs : list Proof.t) :
  firstFailure V rt hashValue proofs = None <-> Forall (verifies V rt hashValue) proofs.
Proof.
  induction proofs as [|p rest IH]; simpl.
  - split; auto.
  - destruct (verdict V rt hashValue p) as [e|] eqn:Hp.
    + split; [discriminate|]. intro H. inversion H as [|? ? Hv]. subst.
      unfold verifies in Hv. congruence.
    + rewrite IH. split.
      * intro H. constructor; assumption.
      * intro H. inversion H. assumption.
Qed.


Lemma examined_all (rt : LogRootV1.t) (hashValue : bytes) (proofs : list Proof.t) :
  Forall (verifies V rt hashValue) proofs -> examined V rt hashValue proofs = proofs.
Proof.
  induction 1 as [|p rest Hp _ IH]; simpl; [reflexivity|].
  unfold verifies in Hp. rewrite Hp, IH. reflexivity.
Qed.

(** A full run of [getProofByHash] once the root fetch has returned the
    root [rt]. *)
Lemma getProofByHash_run (t : TrillianClient sigma) (hashValue : bytes)
      (s s1 s2 : sigma) (tr1 : list event) (rt : LogRootV1.t)
      (resp : option GetInclusionProofByHashResponse.t) (err : option error) :
  root UnmarshalBinary t s = (Returned (rt, None), s1, tr1) ->
  GetInclusionProofByHash (client t) timeout20 (proofRequest t rt hashValue) s1
  = ((resp, err), s2) ->
  exists tl,
    getProofByHash UnmarshalBinary VerifyInclusionProof t hashValue s
    = (Returned
         match firstFailure V rt hashValue (entries resp) with
         | Some e => (Some Response.zero, Some e)
         | None =>
             (Some {| Response.status := status.Code err;
                      Response.getAddResult := None;
                      Response.getLeafResult := None;
                      Response.getProofResult := resp;
                      Response.getLeafByIndexResult := None;
                      Response.getLatestResult := None;
                      Response.getConsistencyProofResult := None |},
              None)
         end,
       s2,
       tr1 ++ RpcGetInclusionProofByHash timeout20 (proofRequest t rt hashValue) :: tl)
    /\ filter is_verification tl
       = map (verificationOf rt hashValue) (examined V rt hashValue (entries resp))
    /\ filter is_rpc tl = [].
Proof.
  intros Hroot Hrpc.
  assert (Hcall : call (RpcGetInclusionProofByHash timeout20 (proofRequest t rt hashValue))
                       (GetInclusionProofByHash (client t) timeout20
                                                (proofRequest t rt hashValue)) s1
                  = (Returned (resp, err), s2,
                     [RpcGetInclusionProofByHash timeout20 (proofRequest t rt hashValue)]))
    by (unfold call; rewrite Hrpc; reflexivity).
  assert (Hloop : exists tl,
             match resp with
             | Some r => verifyProofs V rt hashValue 0 (GetInclusionProofByHashResponse.Proof r)
             | None => ret None
             end s2
             = (Returned (firstFailure V rt hashValue (entries resp)), s2, tl)
             /\ filter is_verification tl
                = map (verificationOf rt hashValue) (examined V rt hashValue (entries resp))
             /\ filter is_rpc tl = []).
  { destruct resp as [r|]; simpl.
    - apply verifyProofs_run.
    - exists []. repeat split. }
  destruct Hloop as (tl & Hloop & Hv & Hr).
  exists tl. split; [|split; assumption].
  unfold getProofByHash. cbv zeta.
  rewrite (bind_returned _ _ _ _ _ _ Hroot). cbv beta iota.
  fold (proofRequest t rt hashValue).
  rewrite (bind_returned _ _ _ _ _ _ Hcall). cbv beta iota.
  rewrite (bind_returned _ _ _ _ _ _ Hloop).
  unfold outcome_of, state_of, trace_of.
  destruct (firstFailure V rt hashValue (entries resp)) as [e|]; simpl;
    rewrite app_nil_r; reflexivity.
Qed.

(** A run of [getProofByHash] in which the root fetch does not hand back a
    root: nothing else happens. *)
Lemma getProofByHash_without_root (t : TrillianClient sigma) (hashValue : bytes) (s : sigma) :
  (forall rt s1 tr1, root UnmarshalBinary t s <> (Returned (rt, None), s1, tr1)) ->
  let r := getProofByHash UnmarshalBinary V t hashValue s in
  trace_of r = [RpcGetLatestSignedLogRoot context.Background (rootRequest t)]
  /\ (forall rsp e, outcome_of r = Returned (Some rsp, e) -> rsp = Response.zero /\ e <> None).
Proof.
  intros Hno r. subst r.
  pose proof (root_trace sigma UnmarshalBinary t s) as Htr.
  unfold getProofByHash. cbv zeta.
  destruct (root UnmarshalBinary t s) as [[o s1] tr1] eqn:Hroot.
  unfold trace_of in Htr. simpl in Htr. subst tr1.
  destruct o as [[rt [e|]]| |].
  - rewrite (bind_returned _ _ _ _ _ _ Hroot). cbv beta iota.
    unfold outcome_of, state_of, trace_of, ret. simpl. split; [reflexivity|].
    intros rsp e' H. inversion H. split; [reflexivity|discriminate].
  - exfalso. exact (Hno rt s1 _ eq_refl).
  - rewrite (bind_panicked _ _ _ _ _ Hroot). unfold outcome_of, trace_of. simpl.
    split; [reflexivity|]. intros rsp e' H. discriminate H.
  - rewrite (bind_exited _ _ _ _ _ Hroot). unfold outcome_of, trace_of. simpl.
    split; [reflexivity|]. intros rsp e' H. discriminate H.
Qed.

Lemma no_rpc_no_root_fetch (tl : list event) :
  filter is_rpc tl = [] -> filter is_root_fetch tl = [].
Proof.
  induction tl as [|ev tl IH]; simpl; [reflexivity|].
  destruct (is_rpc ev) eqn:Hev; [discriminate|].
  intro H. rewrite (IH H).
  destruct ev; simpl in *; try reflexivity; discriminate Hev.
Qed.


(** Below 2^63, [int64(x)] is [x]. *)
Lemma int64_of_uint64_in_range (x : Z) :
  0 <= x < 2 ^ 63 -> int64_of_uint64 x = x.
Proof.
  intros [_ H]. unfold int64_of_uint64.
  destruct (x <? 2 ^ 63) eqn:E; [reflexivity|].
  apply Z.ltb_ge in E. lia.
Qed.

(** From 2^63 on, [int64(x)] is [x - 2^64]. *)
Lemma int64_of_uint64_wraps (x : Z) :
  2 ^ 63 <= x < 2 ^ 64 -> int64_of_uint64 x = x - 2 ^ 64.
Proof.
  intros [H _]. unfold int64_of_uint64.
  destruct (x <? 2 ^ 63) eqn:E; [|reflexivity].
  apply Z.ltb_lt in E. lia.
Qed.

(** C2 (amended). Every run of [getProofByHash] starts with the root fetch
    and fetches no other root.  When that fetch returns the root [rt], the
    next event is the proof request, made in the state the fetch left, for
    the size [int64(rt.TreeSize)]: the tree size of [rt] when it is below
    2^63, that size less 2^64 from there on.  No other remote call follows.
    The runs of the verifier are, in order, one for each entry of the
    answer up to the first entry refused, each against that size and the
    root hash of [rt] on the requested leaf hash; and when the caller is
    handed a response that carries a proof, it is the authority's answer
    and the verifier has been run so on every one of its entries. *)
Theorem getProofByHash_same_root (t : TrillianClient sigma) (hashValue : bytes) (s : sigma) :
  let r := getProofByHash UnmarshalBinary V t hashValue s in
  (exists tl, trace_of r = RpcGetLatestSignedLogRoot context.Background (rootRequest t) :: tl
              /\ filter is_root_fetch tl = [])
  /\ (forall rt s1 tr1,
         root UnmarshalBinary t s = (Returned (rt, None), s1, tr1) ->
         let size := int64_of_uint64 (LogRootV1.TreeSize rt) in
         let rqst := {| GetInclusionProofByHashRequest.LogId := logID t;
                        GetInclusionProofByHashRequest.LeafHash := hashValue;
                        GetInclusionProofByHashRequest.TreeSize := size |} in
         let run := fun p => CallVerifyInclusionProof
                               (Proof.LeafIndex p) size (Proof.Hashes p)
                               (LogRootV1.RootHash rt) hashValue in
         (0 <= LogRootV1.TreeSize rt < 2 ^ 63 -> size = LogRootV1.TreeSize rt)
         /\ (2 ^ 63 <= LogRootV1.TreeSize rt < 2 ^ 64 -> size = LogRootV1.TreeSize rt - 2 ^ 64)
         /\ exists resp err s2 tl,
             GetInclusionProofByHash (client t) timeout20 rqst s1 = ((resp, err), s2)
             /\ trace_of r
                = RpcGetLatestSignedLogRoot context.Background (rootRequest t)
                    :: RpcGetInclusionProofByHash timeout20 rqst :: tl
             /\ filter is_rpc tl = []
             /\ filter is_verification tl = map run (examined V rt hashValue (entries resp))
             /\ (forall rsp e presp,
                    outcome_of r = Returned (Some rsp, e) ->
                    Response.getProofResult rsp = Some presp ->
                    resp = Some presp
                    /\ filter is_verification tl
                       = map run (GetInclusionProofByHashResponse.Proof presp))).
Proof.
  intro r. subst r.
  assert (Hsucc : forall rt s1 tr1,
             root UnmarshalBinary t s = (Returned (rt, None), s1, tr1) ->
             exists resp err s2 tl,
               GetInclusionProofByHash (client t) timeout20 (proofRequest t rt hashValue) s1
               = ((resp, err), s2)
               /\ getProofByHash UnmarshalBinary V t hashValue s
                  = (Returned
                       match firstFailure V rt hashValue (entries resp) with
                       | Some e => (Some Response.zero, Some e)
                       | None =>
                           (Some {| Response.status := status.Code err;
                                    Response.getAddResult := None;
                                    Response.getLeafResult := None;
                                    Response.getProofResult := resp;
                                    Response.getLeafByIndexResult := None;
                                    Response.getLatestResult := None;
                                    Response.getConsistencyProofResult := None |},
                            None)
                       end,
                     s2,
                     RpcGetLatestSignedLogRoot context.Background (rootRequest t)
                       :: RpcGetInclusionProofByHash timeout20 (proofRequest t rt hashValue)
                       :: tl)
               /\ filter is_rpc tl = []
               /\ filter is_verification tl
                  = map (verificationOf rt hashValue) (examined V rt hashValue (entries resp))).
  { intros rt s1 tr1 Hroot.
    destruct (GetInclusionProofByHash (client t) timeout20 (proofRequest t rt hashValue) s1)
      as [[resp err] s2] eqn:Hrpc.
    destruct (getProofByHash_run t hashValue s s1 s2 tr1 rt resp err Hroot Hrpc)
      as (tl & Hrun & Hv & Hr).
    pose proof (root_trace sigma UnmarshalBinary t s) as Htr.
    rewrite Hroot in Htr. unfold trace_of in Htr. simpl in Htr. subst tr1.
    exists resp, err, s2, tl. repeat split; assumption. }
  split.
  - destruct (root UnmarshalBinary t s) as [[o s1] tr1] eqn:Hroot.
    destruct o as [[rt [e|]]| |];
      try (exists []; split; [|reflexivity];
           apply getProofByHash_without_root; rewrite Hroot; intros; discriminate).
    destruct (Hsucc rt s1 tr1 eq_refl) as (resp & err & s2 & tl & _ & Hrun & Hr & _).
    eexists. rewrite Hrun. unfold trace_of. simpl. split; [reflexivity|].
    simpl. apply no_rpc_no_root_fetch. exact Hr.
  - intros rt s1 tr1 Hroot size rqst run.
    split; [apply int64_of_uint64_in_range|].
    split; [apply int64_of_uint64_wraps|].
    destruct (Hsucc rt s1 tr1 Hroot) as (resp & err & s2 & tl & Hrpc & Hrun & Hr & Hv).
    exists resp, err, s2, tl.
    split; [exact Hrpc|].
    split; [rewrite Hrun; reflexivity|].
    split; [exact Hr|].
    split; [exact Hv|].
    intros rsp e presp Hout Hproof. rewrite Hrun in Hout. unfold outcome_of in Hout.
    simpl in Hout.
    destruct (firstFailure V rt hashValue (entries resp)) as [e0|] eqn:Hff.
    + inversion Hout. subst rsp. discriminate Hproof.
    + inversion Hout. subst rsp e. simpl in Hproof. subst resp.
      split; [reflexivity|].
      rewrite Hv. apply firstFailure_none_iff in Hff.
      rewrite (examined_all rt hashValue _ Hff). reflexivity.
Qed.

End ProofProperties.

Section TreeProperties.

Variable sigma : Type.
Variable InitLog :
  context.Context -> option Tree.t -> TrillianLogClient sigma -> sigma -> option error * sigma.
Variable adminClient : TrillianAdminClient sigma.
Variable logClient : TrillianLogClient sigma.

(** The loop picks the first tree of type LOG of the listing. *)
Lemma firstLogTree_first (l1 l2 : list Tree.t) (t : Tree.t) :
  Forall (fun x => Tree.TreeType_ x <> TreeType_LOG) l1 ->
  Tree.TreeType_ t = TreeType_LOG ->
  firstLogTree (l1 ++ t :: l2) = Some t.
Proof.
  intros Hl1 Ht. induction Hl1 as [|x l1 Hx _ IH]; simpl.
  - rewrite Ht. reflexivity.
  - destruct (Tree.TreeType_ x); simpl; try exact IH. exfalso. apply Hx. reflexivity.
Qed.

Lemma firstLogTree_none (l : list Tree.t) :
  firstLogTree l = None -> Forall (fun x => Tree.TreeType_ x <> TreeType_LOG) l.
Proof.
  induction l as [|x l IH]; simpl; [constructor|].
  destruct (Tree.TreeType_ x) eqn:Hx; simpl; intro H;
    try discriminate H; constructor; try (apply IH; exact H);
    rewrite Hx; discriminate.
Qed.

Lemma firstLogTree_inserted (l1 l2 : list Tree.t) (t : Tree.t) :
  firstLogTree (l1 ++ l2) = None ->
  Tree.TreeType_ t = TreeType_LOG ->
  firstLogTree (l1 ++ t :: l2) = Some t.
Proof.
  intros Hnone Ht. apply firstLogTree_first; [|exact Ht].
  apply firstLogTree_none in Hnone. apply Forall_app in Hnone. tauto.
Qed.

(** The short circuit: a listing that shows a tree of type LOG ends the
    routine there. *)
Lemma createAndInitTree_found (ctx : context.Context) (s s1 : sigma)
      (resp : ListTreesResponse.t) (t : Tree.t) :
  ListTrees adminClient ctx ListTreesRequest.zero s = ((Some resp, None), s1) ->
  firstLogTree (ListTreesResponse.Tree resp) = Some t ->
  createAndInitTree InitLog ctx adminClient logClient s
  = (Returned (Some t, None), s1, [RpcListTrees ctx ListTreesRequest.zero]).
Proof.
  intros HL Hf. unfold createAndInitTree. unfold_go. rewrite HL. simpl.
  rewrite Hf. reflexivity.
Qed.

Lemma createAndInitTree_lists_first (ctx : context.Context) (s : sigma) :
  exists tl, trace_of (createAndInitTree InitLog ctx adminClient logClient s)
             = RpcListTrees ctx ListTreesRequest.zero :: tl.
Proof.
  unfold createAndInitTree.
  match goal with
  | |- context [bind ?m ?k s] => destruct (bind_trace_prefix m k s) as [tl Htl]
  end.
  rewrite Htl. unfold trace_of, call.
  destruct (ListTrees adminClient ctx ListTreesRequest.zero s) as [a s1].
  exists tl. reflexivity.
Qed.

Variable visible : sigma -> list Tree.t.
Hypothesis scope : AdminScope InitLog adminClient visible.

(** After a call that returned a tree, that tree is the first tree of type
    LOG of the scope. *)
Lemma createAndInitTree_leaves_first (ctx : context.Context) (s s1 : sigma)
      (t : Tree.t) (tr1 : list event) :
  createAndInitTree InitLog ctx adminClient logClient s = (Returned (Some t, None), s1, tr1) ->
  firstLogTree (visible s1) = Some t.
Proof.
  unfold createAndInitTree. unfold_go.
  destruct (ListTrees adminClient ctx ListTreesRequest.zero s) as [[trees err] sa] eqn:HL.
  destruct err as [e|]; simpl; [intro H; discriminate H|].
  destruct trees as [resp|]; simpl; [|intro H; discriminate H].
  destruct (list_shows scope _ _ _ _ _ HL) as [Hshow Hkeep].
  destruct (firstLogTree (ListTreesResponse.Tree resp)) as [t0|] eqn:Hf; simpl.
  - intro H. inversion H. subst. rewrite Hkeep, <- Hshow. exact Hf.
  - destruct (CreateTree adminClient ctx _ sa) as [[ct cerr] sb] eqn:HC.
    destruct cerr as [e|]; simpl; [intro H; discriminate H|].
    destruct (InitLog ctx ct logClient sb) as [ierr sc] eqn:HI.
    destruct ierr as [e|]; simpl; intro H; inversion H. subst.
    destruct (create_adds scope _ _ _ _ _ HC) as [(l1 & l2 & Hbefore & Hafter) Htype].
    rewrite (init_keeps scope _ _ _ _ _ _ HI), Hafter.
    apply firstLogTree_inserted.
    + rewrite <- Hbefore, Hkeep, <- Hshow. exact Hf.
    + rewrite (Htype newLogTree eq_refl). reflexivity.
Qed.

(** C5. [createAndInitTree] lists the trees first.  If the first tree of
    type LOG of the listing is [t], it returns [t] after that one call,
    creating nothing.  Hence, in one administrative scope, a call made
    after a call that returned the tree [t], and whose listing succeeds,
    returns [t] again and issues no creation call. *)
Theorem createAndInitTree_first_found_idempotent :
  (forall ctx s,
      exists tl, trace_of (createAndInitTree InitLog ctx adminClient logClient s)
                 = RpcListTrees ctx ListTreesRequest.zero :: tl)
  /\ (forall ctx s s1 resp l1 l2 t,
         ListTrees adminClient ctx ListTreesRequest.zero s = ((Some resp, None), s1) ->
         ListTreesResponse.Tree resp = l1 ++ t :: l2 ->
         Forall (fun x => Tree.TreeType_ x <> TreeType_LOG) l1 ->
         Tree.TreeType_ t = TreeType_LOG ->
         let r := createAndInitTree InitLog ctx adminClient logClient s in
         outcome_of r = Returned (Some t, None)
         /\ trace_of r = [RpcListTrees ctx ListTreesRequest.zero]
         /\ filter is_create_tree (trace_of r) = [])
  /\ (forall ctx ctx' s s1 s2 tr1 t resp2,
         createAndInitTree InitLog ctx adminClient logClient s
         = (Returned (Some t, None), s1, tr1) ->
         ListTrees adminClient ctx' ListTreesRequest.zero s1 = ((Some resp2, None), s2) ->
         let r2 := createAndInitTree InitLog ctx' adminClient logClient s1 in
         outcome_of r2 = Returned (Some t, None)
         /\ trace_of r2 = [RpcListTrees ctx' ListTreesRequest.zero]
         /\ filter is_create_tree (trace_of r2) = []).
Proof.
  split; [exact createAndInitTree_lists_first|]. split.
  - intros ctx s s1 resp l1 l2 t HL Hsplit Hl1 Ht r. subst r.
    rewrite (createAndInitTree_found ctx s s1 resp t HL).
    + repeat split.
    + rewrite Hsplit. apply firstLogTree_first; assumption.
  - intros ctx ctx' s s1 s2 tr1 t resp2 Hfirst HL r2. subst r2.
    rewrite (createAndInitTree_found ctx' s1 s2 resp2 t HL).
    + repeat split.
    + destruct (list_shows scope _ _ _ _ _ HL) as [Hshow _].
      rewrite Hshow. exact (createAndInitTree_leaves_first ctx s s1 t tr1 Hfirst).
Qed.

End TreeProperties.

(** ** The theorems at work on the in-memory authority *)

Lemma stub_admin_scope : AdminScope Stub.initLog Stub.adminClient Stub.trees.
Proof.
  constructor.
  - intros ctx rq s resp s1. simpl. unfold Stub.answer.
    destruct (Stub.transport ctx s); intro H; inversion H. simpl. auto.
  - intros ctx rq s t s1. simpl. unfold Stub.answer.
    destruct (Stub.transport ctx s); intro H; inversion H. simpl. split.
    + exists (Stub.trees s), []. rewrite app_nil_r. auto.
    + intros spec Hspec. rewrite Hspec. reflexivity.
  - intros ctx t lc s e s1. unfold Stub.initLog.
    destruct (Stub.initFails s); intro H; inversion H; reflexivity.
Qed.

(** An empty root blob: [root] returns the decoder's error with the empty
    root. *)
Lemma root_single_call_error_iff_witness :
  (rootCallFails Stub.tc Stub.fresh (PlainError "short root blob")
   \/ rootDecodeFails Stub.unmarshalBinary Stub.tc Stub.fresh (PlainError "short root blob"))
  /\ List.length (filter is_rpc (trace_of (root Stub.unmarshalBinary Stub.tc Stub.fresh)))
     = 1%nat.
Proof.
  destruct (root_single_call_error_iff _ Stub.unmarshalBinary Stub.tc Stub.fresh)
    as (_ & Hone & Hiff & _).
  split.
  - apply Hiff. exists LogRootV1.zero. reflexivity.
  - exact Hone.
Defined.

(** The transport is down: [addLeaf] panics. *)
Lemma addLeaf_transport_failure_panics_witness :
  outcome_of (addLeaf Stub.tc Stub.leafA Stub.down) = Panicked.
Proof.
  exact (proj1 (addLeaf_transport_failure_panics
                  _ Stub.tc Stub.leafA Stub.down Stub.down
                  (GrpcError codes.Unavailable "connection refused") eq_refl)).
Defined.

(** The leaf is already queued: [addLeaf] returns [AlreadyExists]. *)
Lemma addLeaf_already_exists_witness :
  exists rsp,
    outcome_of (addLeaf Stub.tc Stub.leafA Stub.oneLeaf) = Returned (Some rsp, None)
    /\ Response.status rsp = codes.AlreadyExists.
Proof.
  destruct (addLeaf_already_exists
              _ Stub.tc Stub.leafA Stub.oneLeaf Stub.oneLeaf _ None _ _
              eq_refl eq_refl eq_refl eq_refl) as (rsp & Hout & Hst & _).
  exists rsp. split; assumption.
Defined.

(** The transport is down: the lookup by hash ends the process and the
    submission panics. *)
Lemma failures_not_always_returned_witness :
  outcome_of (getLeafByHash Stub.tc [Stub.leafA] Stub.down) = Exited
  /\ outcome_of (addLeaf Stub.tc Stub.leafA Stub.down) = Panicked.
Proof.
  destruct (failures_not_always_returned
              _ Stub.tc Stub.down Stub.down
              (GrpcError codes.Unavailable "connection refused")) as [Hhash Hadd].
  split.
  - exact (proj1 (Hhash [Stub.leafA] None eq_refl)).
  - exact (Hadd Stub.leafA eq_refl).
Defined.

(** The authority answers after 30 seconds: the lookup by index comes back
    with [DeadlineExceeded]. *)
Lemma getLeafByIndex_deadline_timeout_witness :
  exists rsp,
    outcome_of (getLeafByIndex Stub.tc [0] Stub.slow) = Returned (Some rsp, None)
    /\ Response.status rsp = codes.DeadlineExceeded
    /\ Response.status rsp <> codes.NotFound.
Proof.
  destruct (getLeafByIndex_deadline_timeout _ Stub.tc [0] Stub.slow) as (_ & _ & Hto & _).
  destruct (Hto None "context deadline exceeded"%string Stub.slow eq_refl)
    as (rsp & Hout & Hst & Hnf & _).
  exists rsp. auto.
Defined.


(** The log of one leaf: the proof is requested at size 1, the size of
    the root that was fetched, and the one entry handed to the caller has
    been verified against that root. *)
Lemma getProofByHash_same_root_witness :
  exists tl,
    trace_of (getProofByHash Stub.unmarshalBinary Stub.verifyInclusionProof
                             Stub.tc Stub.leafA Stub.oneLeaf)
    = RpcGetLatestSignedLogRoot context.Background (rootRequest Stub.tc)
        :: RpcGetInclusionProofByHash
             timeout20
             {| GetInclusionProofByHashRequest.LogId := 1;
                GetInclusionProofByHashRequest.LeafHash := Stub.leafA;
                GetInclusionProofByHashRequest.TreeSize := 1 |}
        :: tl
    /\ filter is_rpc tl = []
    /\ filter is_verification tl = [CallVerifyInclusionProof 0 1 [] Stub.leafA Stub.leafA]
    /\ int64_of_uint64 1 = 1.
Proof.
  destruct (getProofByHash_same_root
              _ Stub.unmarshalBinary Stub.verifyInclusionProof
              Stub.tc Stub.leafA Stub.oneLeaf) as [_ Hsame].
  destruct (Hsame (LogRootV1.mk 1 Stub.leafA 0 0 []) Stub.oneLeaf _ eq_refl)
    as (Hsmall & _ & resp & err & s2 & tl & Hrpc & Htl & Hr & _ & Hret).
  exists tl. split; [exact Htl|]. split; [exact Hr|].
  split; [|exact (Hsmall ltac:(simpl; lia))].
  assert (Hresp : resp = Some {| GetInclusionProofByHashResponse.Proof :=
                                   Stub.proofs Stub.oneLeaf |})
    by (inversion Hrpc; reflexivity).
  subst resp.
  assert (Hout : exists rsp,
             outcome_of (getProofByHash Stub.unmarshalBinary Stub.verifyInclusionProof
                                        Stub.tc Stub.leafA Stub.oneLeaf)
             = Returned (Some rsp, None)
             /\ Response.getProofResult rsp
                = Some {| GetInclusionProofByHashResponse.Proof := Stub.proofs Stub.oneLeaf |})
    by (eexists; split; reflexivity).
  destruct Hout as (rsp & Hout & Hproof).
  exact (proj2 (Hret rsp None _ Hout Hproof)).
Defined.

(** A root of 2^63 leaves: the proof is requested at the size -2^63, which
    is not the tree size of the root that was fetched. *)
Lemma getProofByHash_same_root_counterexample :
  exists rt s1 tr1 rqst tl,
    root Stub.unmarshalHuge Stub.tc Stub.oneLeaf = (Returned (rt, None), s1, tr1)
    /\ trace_of (getProofByHash Stub.unmarshalHuge Stub.verifyInclusionProof
                                Stub.tc Stub.leafA Stub.oneLeaf)
       = RpcGetLatestSignedLogRoot context.Background (rootRequest Stub.tc)
           :: RpcGetInclusionProofByHash timeout20 rqst :: tl
    /\ LogRootV1.TreeSize rt = 2 ^ 63
    /\ GetInclusionProofByHashRequest.TreeSize rqst = - 2 ^ 63
    /\ GetInclusionProofByHashRequest.TreeSize rqst <> LogRootV1.TreeSize rt.
Proof.
  do 5 eexists. split; [reflexivity|]. split; [reflexivity|].
  split; [reflexivity|]. split; [reflexivity|]. discriminate.
Qed.

(** An empty scope: the first call creates tree 1, the second call finds
    it and creates nothing. *)
Lemma createAndInitTree_first_found_idempotent_witness :
  outcome_of (createAndInitTree Stub.initLog context.Background
                                Stub.adminClient Stub.logClient Stub.bootstrapped)
  = Returned (Some Stub.tree1, None)
  /\ filter is_create_tree
       (trace_of (createAndInitTree Stub.initLog context.Background
                                    Stub.adminClient Stub.logClient Stub.bootstrapped))
     = [].
Proof.
  destruct (createAndInitTree_first_found_idempotent
              _ Stub.initLog Stub.adminClient Stub.logClient Stub.trees stub_admin_scope)
    as (_ & _ & Hidem).
  destruct (Hidem context.Background context.Background Stub.fresh
                  Stub.bootstrapped Stub.bootstrapped _ Stub.tree1 _ eq_refl eq_refl)
    as (Hout & _ & Hnone).
  split; [exact Hout|exact Hnone].
Defined.

(** ** Further properties of the leaf operations, [getLatest] and [root] *)

Section MoreLeafProperties.

Variable sigma : Type.
Variable UnmarshalBinary : bytes -> LogRootV1.t * option error.

(** X1. [getLatest] always returns, with exactly one of a response and an
    error: the error of the remote call when there is one and then a nil
    response; otherwise a response with status [OK] that carries the
    authority's answer.  The call is made for the caller's size, as given. *)
Theorem getLatest_response_xor_error (t : TrillianClient sigma) (leafSizeInt : Z) (s : sigma) :
  let a := fst (GetLatestSignedLogRoot (client t) timeout20 (latestRequest t leafSizeInt) s) in
  GetLatestSignedLogRootRequest.FirstTreeSize (latestRequest t leafSizeInt) = leafSizeInt
  /\ exists rsp,
      outcome_of (getLatest t leafSizeInt s) = Returned (rsp, snd a)
      /\ (snd a <> None -> rsp = None)
      /\ (snd a = None ->
          exists r, rsp = Some r
                    /\ Response.status r = codes.OK
                    /\ Response.getLatestResult r = fst a).
Proof.
  intro a. subst a. split; [reflexivity|].
  unfold getLatest, latestRequest. unfold_go.
  destruct (GetLatestSignedLogRoot _ _ _ s) as [[resp err] s1]. simpl.
  destruct err as [e|]; simpl; eexists; (split; [reflexivity|]); split.
  - reflexivity.
  - discriminate.
  - intro H. exfalso. apply H. reflexivity.
  - intros _. eexists. repeat split.
Qed.

(** X2. The three leaf operations never hand an error to their caller:
    whenever [addLeaf], [getLeafByHash] or [getLeafByIndex] returns, the
    error is nil and the response is not. *)
Theorem leaf_operations_return_nil_error (t : TrillianClient sigma) (s : sigma)
        (byteValue : bytes) (hashValues : list bytes) (indexes : list Z)
        (rsp : option Response.t) (e : option error) :
  (outcome_of (addLeaf t byteValue s) = Returned (rsp, e) -> e = None /\ rsp <> None)
  /\ (outcome_of (getLeafByHash t hashValues s) = Returned (rsp, e) -> e = None /\ rsp <> None)
  /\ (outcome_of (getLeafByIndex t indexes s) = Returned (rsp, e) -> e = None /\ rsp <> None).
Proof.
  unfold addLeaf, getLeafByHash, getLeafByIndex. unfold_go. repeat split.
  - destruct (QueueLeaf _ _ _ s) as [[resp err] s1].
    destruct err; destruct resp; simpl in H; inversion H; reflexivity.
  - destruct (QueueLeaf _ _ _ s) as [[resp err] s1].
    destruct err; destruct resp; simpl in H; inversion H; discriminate.
  - destruct (GetLeavesByHash _ _ _ s) as [[resp err] s1].
    destruct err; simpl in H; inversion H; reflexivity.
  - destruct (GetLeavesByHash _ _ _ s) as [[resp err] s1].
    destruct err; simpl in H; inversion H; discriminate.
  - destruct (GetLeavesByIndex _ _ _ s) as [[resp err] s1].
    simpl in H; inversion H; reflexivity.
  - destruct (GetLeavesByIndex _ _ _ s) as [[resp err] s1].
    simpl in H; inversion H; discriminate.
Qed.

(** X3. [getLeafByIndex] neither panics nor exits: whatever the remote
    call hands back, it returns a response whose status is the code of the
    call's error ([OK] without an error, [Unknown] for an error that
    carries no gRPC status) with the authority's answer attached. *)
Theorem getLeafByIndex_always_returns (t : TrillianClient sigma) (indexes : list Z) (s : sigma) :
  let a := fst (GetLeavesByIndex (client t) timeout20 (indexRequest t indexes) s) in
  exists r,
    outcome_of (getLeafByIndex t indexes s) = Returned (Some r, None)
    /\ Response.getLeafByIndexResult r = fst a
    /\ Response.status r = status.Code (snd a)
    /\ (snd a = None -> Response.status r = codes.OK)
    /\ (forall msg, snd a = Some (PlainError msg) -> Response.status r = codes.Unknown).
Proof.
  intro a. subst a. unfold getLeafByIndex, indexRequest. unfold_go.
  destruct (GetLeavesByIndex _ _ _ s) as [[resp err] s1]. simpl.
  eexists. split; [reflexivity|]. simpl. repeat split.
  - intro H. rewrite H. reflexivity.
  - intros msg H. rewrite H. reflexivity.
Qed.

(** X4. [getLeafByHash] ends the process exactly when the remote call
    hands back an error, and never panics; without an error it returns
    status [OK] with the authority's answer attached. *)
Theorem getLeafByHash_exits_iff_error (t : TrillianClient sigma) (hashValues : list bytes)
        (s : sigma) :
  let a := fst (GetLeavesByHash (client t) context.Background (hashRequest t hashValues) s) in
  let r := getLeafByHash t hashValues s in
  (outcome_of r = Exited <-> snd a <> None)
  /\ outcome_of r <> Panicked
  /\ (snd a = None ->
      exists rsp, outcome_of r = Returned (Some rsp, None)
                  /\ Response.status rsp = codes.OK
                  /\ Response.getLeafResult rsp = fst a
                  /\ trace_of r
                     = [RpcGetLeavesByHash context.Background (hashRequest t hashValues)]).
Proof.
  intros a r. subst a r. unfold getLeafByHash, hashRequest. unfold_go.
  destruct (GetLeavesByHash _ _ _ s) as [[resp err] s1]. simpl.
  destruct err as [e|]; simpl.
  - split; [|split].
    + split; [discriminate|reflexivity].
    + discriminate.
    + discriminate.
  - split; [|split].
    + split; [discriminate|]. intro H. exfalso. apply H. reflexivity.
    + discriminate.
    + intros _. eexists. repeat split.
Qed.

(** X5. [addLeaf] panics exactly when the remote call hands back no
    response, with or without an error, and it never ends the process. *)
Theorem addLeaf_panics_iff_nil_response (t : TrillianClient sigma) (byteValue : bytes)
        (s : sigma) :
  let a := fst (QueueLeaf (client t) context.Background (queueRequest t byteValue) s) in
  let r := addLeaf t byteValue s in
  (outcome_of r = Panicked <-> fst a = None)
  /\ outcome_of r <> Exited.
Proof.
  intros a r. subst a r. unfold addLeaf, queueRequest. unfold_go.
  destruct (QueueLeaf _ _ _ s) as [[resp err] s1]. simpl.
  destruct err as [e|]; destruct resp as [rp|]; simpl;
    (split; [split; intro H; try discriminate H; try reflexivity|discriminate]).
Qed.

(** X6. The status [addLeaf] returns is read from the queued leaf of the
    response through nil-safe getters and converted from [int32] to
    [uint32]: it is [OK] when the queued leaf or its status is absent, the
    authority's code [c] itself when [0 <= c], and [c + 2^32] when the code
    is negative. *)
Theorem addLeaf_status_field (t : TrillianClient sigma) (byteValue : bytes)
        (s s1 : sigma) (resp : QueueLeafResponse.t) (err : option error) :
  QueueLeaf (client t) context.Background (queueRequest t byteValue) s
  = ((Some resp, err), s1) ->
  exists rsp,
    outcome_of (addLeaf t byteValue s) = Returned (Some rsp, None)
    /\ (QueueLeafResponse.QueuedLeaf resp = None -> Response.status rsp = codes.OK)
    /\ (forall q, QueueLeafResponse.QueuedLeaf resp = Some q ->
                  QueuedLogLeaf.Status q = None -> Response.status rsp = codes.OK)
    /\ (forall q st, QueueLeafResponse.QueuedLeaf resp = Some q ->
                     QueuedLogLeaf.Status q = Some st ->
                     - 2 ^ 31 <= rpcStatus.Code st < 2 ^ 31 ->
                     0 <= Response.status rsp < 2 ^ 32
                     /\ (0 <= rpcStatus.Code st -> Response.status rsp = rpcStatus.Code st)
                     /\ (rpcStatus.Code st < 0 ->
                         Response.status rsp = rpcStatus.Code st + 2 ^ 32)).
Proof.
  intro H. unfold addLeaf, queueRequest in *. unfold_go. rewrite H.
  assert (Hret : forall tr0 : list event,
             exists rsp,
               fst (fst (Returned
                           (Some {| Response.status :=
                                      uint32_of_int32
                                        (rpcStatus.GetCode
                                           (QueuedLogLeaf.GetStatus
                                              (QueueLeafResponse.QueuedLeaf resp)));
                                    Response.getAddResult := Some resp;
                                    Response.getLeafResult := None;
                                    Response.getProofResult := None;
                                    Response.getLeafByIndexResult := None;
                                    Response.getLatestResult := None;
                                    Response.getConsistencyProofResult := None |},
                            @None error), s1, tr0))
               = Returned (Some rsp, None)
               /\ Response.status rsp
                  = uint32_of_int32
                      (rpcStatus.GetCode
                         (QueuedLogLeaf.GetStatus (QueueLeafResponse.QueuedLeaf resp)))).
  { intro tr0. eexists. split; reflexivity. }
  assert (Hgoal : forall rsp,
             Response.status rsp
             = uint32_of_int32
                 (rpcStatus.GetCode
                    (QueuedLogLeaf.GetStatus (QueueLeafResponse.QueuedLeaf resp))) ->
             (QueueLeafResponse.QueuedLeaf resp = None -> Response.status rsp = codes.OK)
             /\ (forall q, QueueLeafResponse.QueuedLeaf resp = Some q ->
                           QueuedLogLeaf.Status q = None -> Response.status rsp = codes.OK)
             /\ (forall q st, QueueLeafResponse.QueuedLeaf resp = Some q ->
                              QueuedLogLeaf.Status q = Some st ->
                              - 2 ^ 31 <= rpcStatus.Code st < 2 ^ 31 ->
                              0 <= Response.status rsp < 2 ^ 32
                              /\ (0 <= rpcStatus.Code st ->
                                  Response.status rsp = rpcStatus.Code st)
                              /\ (rpcStatus.Code st < 0 ->
                                  Response.status rsp = rpcStatus.Code st + 2 ^ 32))).
  { intros rsp Hst. rewrite Hst. unfold uint32_of_int32. split; [|split].
    - intro Hq. rewrite Hq. reflexivity.
    - intros q Hq Hs. rewrite Hq. simpl. rewrite Hs. reflexivity.
    - intros q st Hq Hs Hrange. rewrite Hq. simpl. rewrite Hs. simpl.
      split; [apply Z.mod_pos_bound; lia|]. split.
      + intro Hpos. apply Z.mod_small. lia.
      + intro Hneg. symmetry. apply Z.mod_unique with (q := -1); lia. }
  destruct err as [e|]; simpl.
  - destruct (Hret [RpcQueueLeaf context.Background
                      {| QueueLeafRequest.LogId := logID t;
                         QueueLeafRequest.Leaf :=
                           Some {| LogLeaf.MerkleLeafHash := [];
                                   LogLeaf.LeafValue := byteValue;
                                   LogLeaf.LeafIndex := 0 |} |}; LogPrintln e])
      as (rsp & Hout & Hst).
    exists rsp. split; [exact Hout|]. apply Hgoal. exact Hst.
  - destruct (Hret [RpcQueueLeaf context.Background
                      {| QueueLeafRequest.LogId := logID t;
                         QueueLeafRequest.Leaf :=
                           Some {| LogLeaf.MerkleLeafHash := [];
                                   LogLeaf.LeafValue := byteValue;
                                   LogLeaf.LeafIndex := 0 |} |}])
      as (rsp & Hout & Hst).
    exists rsp. split; [exact Hout|]. apply Hgoal. exact Hst.
Qed.

End MoreLeafProperties.

(** ** Further properties of [root] and [getProofByHash] *)

Section MoreProofProperties.

Variable sigma : Type.
Variable UnmarshalBinary : bytes -> LogRootV1.t * option error.
Variable VerifyInclusionProof : Z -> Z -> list bytes -> bytes -> bytes -> option error.

Local Abbreviation V := VerifyInclusionProof.

(** X7. [root] panics exactly when the remote call reports no error and
    yet hands back no response, or a response without a signed root; it
    never ends the process. *)
Theorem root_panics_iff (t : TrillianClient sigma) (s : sigma) :
  let a := fst (GetLatestSignedLogRoot (client t) context.Background (rootRequest t) s) in
  let r := root UnmarshalBinary t s in
  (outcome_of r = Panicked
   <-> snd a = None
       /\ (fst a = None
           \/ exists resp, fst a = Some resp
                           /\ GetLatestSignedLogRootResponse.SignedLogRoot resp = None))
  /\ outcome_of r <> Exited.
Proof.
  intros a r. subst a r. unfold root, rootRequest. unfold_go.
  destruct (GetLatestSignedLogRoot _ _ _ s) as [[resp err] s1]. simpl.
  destruct err as [e|]; simpl.
  - split; [|discriminate]. split; [discriminate|]. intros [H _]. discriminate H.
  - destruct resp as [resp|]; simpl.
    + destruct (GetLatestSignedLogRootResponse.SignedLogRoot resp) as [slr|] eqn:Hslr; simpl.
      * destruct (UnmarshalBinary (SignedLogRoot.LogRoot slr)) as [rt [e|]]; simpl;
          (split; [|discriminate]); (split; [discriminate|]);
          intros [_ [H|(resp' & H & H')]]; try discriminate H;
          inversion H; subst resp'; rewrite Hslr in H'; discriminate H'.
      * split; [|discriminate]. split; [|reflexivity].
        intros _. split; [reflexivity|]. right. exists resp. auto.
    + split; [|discriminate]. split; [|reflexivity]. intros _. auto.
Qed.

(** X8. What [root] returns is decided by the [LogRoot] bytes of the
    signed root alone: the decoder's root when it accepts them, its error
    with the empty root otherwise.  The signature that comes with the
    bytes is never looked at. *)
Theorem root_result_from_blob_only (t : TrillianClient sigma) (s s1 : sigma)
        (resp : GetLatestSignedLogRootResponse.t) (slr : SignedLogRoot.t) :
  GetLatestSignedLogRoot (client t) context.Background (rootRequest t) s
  = ((Some resp, None), s1) ->
  GetLatestSignedLogRootResponse.SignedLogRoot resp = Some slr ->
  root UnmarshalBinary t s
  = (Returned match UnmarshalBinary (SignedLogRoot.LogRoot slr) with
              | (_, Some e) => (LogRootV1.zero, Some e)
              | (rt, None) => (rt, None)
              end,
     s1, [RpcGetLatestSignedLogRoot context.Background (rootRequest t)]).
Proof.
  intros H Hslr. unfold root, rootRequest in *. unfold_go. rewrite H. simpl.
  rewrite Hslr. simpl.
  destruct (UnmarshalBinary (SignedLogRoot.LogRoot slr)) as [rt [e|]]; reflexivity.
Qed.

(** Every run of [getProofByHash] is of one of two kinds: the root fetch
    hands back no root and nothing else happens, or it hands back a root
    and the run goes on as [getProofByHash_run] describes. *)
Lemma getProofByHash_cases (t : TrillianClient sigma) (hashValue : bytes) (s : sigma) :
  let r := getProofByHash UnmarshalBinary V t hashValue s in
  (trace_of r = [RpcGetLatestSignedLogRoot context.Background (rootRequest t)]
   /\ (outcome_of r = Panicked \/ outcome_of r = Exited
       \/ exists e, outcome_of r = Returned (Some Response.zero, Some e)))
  \/ (exists rt s1 s2 resp err tl,
         root UnmarshalBinary t s
         = (Returned (rt, None), s1,
            [RpcGetLatestSignedLogRoot context.Background (rootRequest t)])
         /\ GetInclusionProofByHash (client t) timeout20 (proofRequest t rt hashValue) s1
            = ((resp, err), s2)
         /\ r = (Returned
                   match firstFailure V rt hashValue (entries resp) with
                   | Some e => (Some Response.zero, Some e)
                   | None =>
                       (Some {| Response.status := status.Code err;
                                Response.getAddResult := None;
                                Response.getLeafResult := None;
                                Response.getProofResult := resp;
                                Response.getLeafByIndexResult := None;
                                Response.getLatestResult := None;
                                Response.getConsistencyProofResult := None |},
                        None)
                   end,
                 s2,
                 RpcGetLatestSignedLogRoot context.Background (rootRequest t)
                   :: RpcGetInclusionProofByHash timeout20 (proofRequest t rt hashValue) :: tl)
         /\ filter is_verification tl
            = map (verificationOf rt hashValue) (examined V rt hashValue (entries resp))
         /\ filter is_rpc tl = []).
Proof.
  intro r. subst r.
  pose proof (root_trace sigma UnmarshalBinary t s) as Htr.
  destruct (root UnmarshalBinary t s) as [[o s1] tr1] eqn:Hroot.
  unfold trace_of in Htr. simpl in Htr. subst tr1.
  destruct o as [[rt [e|]]| |].
  - left. unfold getProofByHash. cbv zeta.
    rewrite (bind_returned _ _ _ _ _ _ Hroot). cbv beta iota.
    unfold outcome_of, state_of, trace_of, ret. simpl. split; [reflexivity|].
    right. right. exists e. reflexivity.
  - right.
    destruct (GetInclusionProofByHash (client t) timeout20 (proofRequest t rt hashValue) s1)
      as [[resp err] s2] eqn:Hrpc.
    destruct (getProofByHash_run sigma UnmarshalBinary V t hashValue s s1 s2 _ rt resp err
                                 Hroot Hrpc) as (tl & Hrun & Hv & Hr).
    exists rt, s1, s2, resp, err, tl. repeat split; assumption.
  - left. unfold getProofByHash. cbv zeta.
    rewrite (bind_panicked _ _ _ _ _ Hroot). unfold outcome_of, trace_of. simpl. auto.
  - left. unfold getProofByHash. cbv zeta.
    rewrite (bind_exited _ _ _ _ _ Hroot). unfold outcome_of, trace_of. simpl. auto.
Qed.

Lemma filter_nil_false {A} (f : A -> bool) (l : list A) (x : A) :
  filter f l = [] -> In x l -> f x = false.
Proof.
  induction l as [|y l IH]; simpl; [contradiction|].
  destruct (f y) eqn:Hy; [discriminate|].
  intros H [->|Hin]; [exact Hy|exact (IH H Hin)].
Qed.

Lemma not_rpc_no_logId (e : event) : is_rpc e = false -> request_logId e = None.
Proof. destruct e; simpl; try reflexivity; discriminate. Qed.

Ltac in_short_trace :=
  let e := fresh "e" in
  let id' := fresh "id" in
  let Hin := fresh "Hin" in
  let Hreq := fresh "Hreq" in
  intros e id' Hin Hreq; simpl in Hin;
  repeat (destruct Hin as [Hin|Hin];
          [subst e; simpl in Hreq; try discriminate Hreq; inversion Hreq; reflexivity|]);
  contradiction.

(** X9. A client built by [TrillianClientInstance c id] sends every one
    of its requests for the log [id]: no operation ever addresses another
    log. *)
Theorem requests_carry_logID (c : TrillianLogClient sigma) (id : Z) (s : sigma)
        (byteValue hashValue : bytes) (hashValues : list bytes) (indexes : list Z)
        (leafSizeInt firstSize lastSize : Z) :
  let t := TrillianClientInstance c id in
  all_for_log id (trace_of (root UnmarshalBinary t s))
  /\ all_for_log id (trace_of (addLeaf t byteValue s))
  /\ all_for_log id (trace_of (getLeafByHash t hashValues s))
  /\ all_for_log id (trace_of (getLeafByIndex t indexes s))
  /\ all_for_log id (trace_of (getProofByHash UnmarshalBinary V t hashValue s))
  /\ all_for_log id (trace_of (getLatest t leafSizeInt s))
  /\ all_for_log id (trace_of (getConsistencyProof t firstSize lastSize s)).
Proof.
  intro t. unfold all_for_log.
  split; [rewrite root_trace; in_short_trace|].
  split.
  { unfold addLeaf. unfold_go.
    destruct (QueueLeaf _ _ _ s) as [[resp err] s1].
    destruct err; destruct resp; simpl; in_short_trace. }
  split.
  { unfold getLeafByHash. unfold_go.
    destruct (GetLeavesByHash _ _ _ s) as [[resp err] s1].
    destruct err; simpl; in_short_trace. }
  split.
  { unfold getLeafByIndex. unfold_go.
    destruct (GetLeavesByIndex _ _ _ s) as [[resp err] s1]. simpl. in_short_trace. }
  split.
  { destruct (getProofByHash_cases t hashValue s)
      as [[Htr _]|(rt & s1 & s2 & resp & err & tl & _ & _ & Hrun & _ & Hr)].
    - rewrite Htr. in_short_trace.
    - rewrite Hrun. unfold trace_of. simpl.
      intros e id' [<-|[<-|Hin]] Hreq.
      + inversion Hreq. reflexivity.
      + inversion Hreq. reflexivity.
      + rewrite (not_rpc_no_logId e (filter_nil_false _ _ _ Hr Hin)) in Hreq.
        discriminate Hreq. }
  split.
  { unfold getLatest. unfold_go.
    destruct (GetLatestSignedLogRoot _ _ _ s) as [[resp err] s1].
    destruct err; simpl; in_short_trace. }
  { unfold getConsistencyProof. unfold_go.
    destruct (GetConsistencyProof _ _ _ s) as [[resp err] s1].
    destruct err; simpl; in_short_trace. }
Qed.

(** X10. A root fetch that fails ends [getProofByHash] at once: the
    error of [root] is returned with an empty response and no proof is
    requested; a panic of [root] is a panic of [getProofByHash]. *)
Theorem getProofByHash_root_failure (t : TrillianClient sigma) (hashValue : bytes) (s : sigma) :
  (forall rt e s1 tr1,
      root UnmarshalBinary t s = (Returned (rt, Some e), s1, tr1) ->
      getProofByHash UnmarshalBinary V t hashValue s
      = (Returned (Some Response.zero, Some e), s1,
         [RpcGetLatestSignedLogRoot context.Background (rootRequest t)]))
  /\ (forall s1 tr1,
         root UnmarshalBinary t s = (Panicked, s1, tr1) ->
         getProofByHash UnmarshalBinary V t hashValue s
         = (Panicked, s1, [RpcGetLatestSignedLogRoot context.Background (rootRequest t)])).
Proof.
  pose proof (root_trace sigma UnmarshalBinary t s) as Htr.
  split.
  - intros rt e s1 tr1 Hroot. rewrite Hroot in Htr. unfold trace_of in Htr. simpl in Htr.
    subst tr1. unfold getProofByHash. cbv zeta.
    rewrite (bind_returned _ _ _ _ _ _ Hroot). reflexivity.
  - intros s1 tr1 Hroot. rewrite Hroot in Htr. unfold trace_of in Htr. simpl in Htr.
    subst tr1. unfold getProofByHash. cbv zeta.
    rewrite (bind_panicked _ _ _ _ _ Hroot). reflexivity.
Qed.

(** X11. When the proof request hands back no response, [getProofByHash]
    runs no verification and returns a nil error: the failure of the call
    shows only as the status of a response that carries no proof. *)
Theorem getProofByHash_failed_request_is_status
        (t : TrillianClient sigma) (hashValue : bytes) (s s1 s2 : sigma)
        (tr1 : list event) (rt : LogRootV1.t) (err : option error) :
  root UnmarshalBinary t s = (Returned (rt, None), s1, tr1) ->
  GetInclusionProofByHash (client t) timeout20 (proofRequest t rt hashValue) s1
  = ((None, err), s2) ->
  let r := getProofByHash UnmarshalBinary V t hashValue s in
  filter is_verification (trace_of r) = []
  /\ exists rsp, outcome_of r = Returned (Some rsp, None)
                 /\ Response.status rsp = status.Code err
                 /\ Response.getProofResult rsp = None.
Proof.
  intros Hroot Hrpc r. subst r.
  destruct (getProofByHash_run sigma UnmarshalBinary V t hashValue s s1 s2 tr1 rt None err
                               Hroot Hrpc) as (tl & Hrun & Hv & Hr).
  pose proof (root_trace sigma UnmarshalBinary t s) as Htr.
  rewrite Hroot in Htr. unfold trace_of in Htr. simpl in Htr. subst tr1.
  rewrite Hrun. unfold outcome_of, trace_of. simpl in *. rewrite Hv.
  split; [reflexivity|]. eexists. repeat split.
Qed.

Lemma firstFailure_at (rt : LogRootV1.t) (hashValue : bytes)
      (l1 l2 : list Proof.t) (p : Proof.t) (e : error) :
  Forall (verifies V rt hashValue) l1 ->
  verdict V rt hashValue p = Some e ->
  firstFailure V rt hashValue (l1 ++ p :: l2) = Some e
  /\ examined V rt hashValue (l1 ++ p :: l2) = l1 ++ [p].
Proof.
  intros Hl1 Hp. induction Hl1 as [|q l1 Hq _ [IH1 IH2]]; simpl.
  - rewrite Hp. auto.
  - unfold verifies in Hq. rewrite Hq, IH1, IH2. auto.
Qed.

(** X12. The loop stops at the first entry the verifier refuses: the
    verifier is run on the entries up to and including that one, in order,
    and on none of those that follow; the error returned is the verifier's
    error on that entry. *)
Theorem getProofByHash_stops_at_first_refusal
        (t : TrillianClient sigma) (hashValue : bytes) (s s1 s2 : sigma)
        (tr1 : list event) (rt : LogRootV1.t)
        (resp : GetInclusionProofByHashResponse.t) (err : option error)
        (l1 l2 : list Proof.t) (p : Proof.t) (e : error) :
  root UnmarshalBinary t s = (Returned (rt, None), s1, tr1) ->
  GetInclusionProofByHash (client t) timeout20 (proofRequest t rt hashValue) s1
  = ((Some resp, err), s2) ->
  GetInclusionProofByHashResponse.Proof resp = l1 ++ p :: l2 ->
  Forall (verifies V rt hashValue) l1 ->
  verdict V rt hashValue p = Some e ->
  let r := getProofByHash UnmarshalBinary V t hashValue s in
  outcome_of r = Returned (Some Response.zero, Some e)
  /\ filter is_verification (trace_of r) = map (verificationOf rt hashValue) (l1 ++ [p]).
Proof.
  intros Hroot Hrpc Hsplit Hl1 Hp r. subst r.
  destruct (getProofByHash_run sigma UnmarshalBinary V t hashValue s s1 s2 tr1 rt
                               (Some resp) err Hroot Hrpc) as (tl & Hrun & Hv & Hr).
  pose proof (root_trace sigma UnmarshalBinary t s) as Htr.
  rewrite Hroot in Htr. unfold trace_of in Htr. simpl in Htr. subst tr1.
  destruct (firstFailure_at rt hashValue l1 l2 p e Hl1 Hp) as [Hff Hex].
  rewrite Hrun. unfold outcome_of, trace_of. simpl in *.
  rewrite Hsplit in *. rewrite Hff. rewrite Hv, Hex. auto.
Qed.

(** X13. [getProofByHash] never returns a nil response: whenever it
    returns, the response is there, and it is the empty response whenever
    the error is not nil. *)
Theorem getProofByHash_response_never_nil
        (t : TrillianClient sigma) (hashValue : bytes) (s : sigma)
        (rsp : option Response.t) (e : option error) :
  outcome_of (getProofByHash UnmarshalBinary V t hashValue s) = Returned (rsp, e) ->
  rsp <> None /\ (e <> None -> rsp = Some Response.zero).
Proof.
  destruct (getProofByHash_cases t hashValue s)
    as [[_ [H|[H|[e0 H]]]]|(rt & s1 & s2 & resp & err & tl & _ & _ & Hrun & _ & _)].
  - rewrite H. discriminate.
  - rewrite H. discriminate.
  - rewrite H. intro X. inversion X. split; [discriminate|reflexivity].
  - rewrite Hrun. unfold outcome_of. simpl.
    destruct (firstFailure V rt hashValue (entries resp)) as [e0|];
      intro X; inversion X; (split; [discriminate|]); intro Y;
      [reflexivity|exfalso; apply Y; reflexivity].
Qed.

(** X14. A run of [getProofByHash] makes at most two remote calls. *)
Theorem getProofByHash_at_most_two_calls
        (t : TrillianClient sigma) (hashValue : bytes) (s : sigma) :
  (List.length (filter is_rpc (trace_of (getProofByHash UnmarshalBinary V t hashValue s)))
   <= 2)%nat.
Proof.
  destruct (getProofByHash_cases t hashValue s)
    as [[Htr _]|(rt & s1 & s2 & resp & err & tl & _ & _ & Hrun & _ & Hr)].
  - rewrite Htr. simpl. auto.
  - rewrite Hrun. unfold trace_of. simpl. rewrite Hr. simpl. auto.
Qed.

(** X15. The tree size of the root is an unsigned 64-bit number and the
    size of the request a signed one: for a root of 2^63 leaves or more the
    proof is requested, and every entry verified, at the negative size
    [TreeSize - 2^64]. *)
Theorem getProofByHash_large_tree_size
        (t : TrillianClient sigma) (hashValue : bytes) (s s1 : sigma)
        (tr1 : list event) (rt : LogRootV1.t) :
  root UnmarshalBinary t s = (Returned (rt, None), s1, tr1) ->
  2 ^ 63 <= LogRootV1.TreeSize rt < 2 ^ 64 ->
  let r := getProofByHash UnmarshalBinary V t hashValue s in
  GetInclusionProofByHashRequest.TreeSize (proofRequest t rt hashValue)
  = LogRootV1.TreeSize rt - 2 ^ 64
  /\ GetInclusionProofByHashRequest.TreeSize (proofRequest t rt hashValue) < 0
  /\ In (RpcGetInclusionProofByHash timeout20 (proofRequest t rt hashValue)) (trace_of r)
  /\ (forall leafIndex treeSize hashes rootHash leafHash,
         In (CallVerifyInclusionProof leafIndex treeSize hashes rootHash leafHash) (trace_of r) ->
         treeSize = LogRootV1.TreeSize rt - 2 ^ 64).
Proof.
  intros Hroot Hrange r. subst r.
  assert (Hconv : int64_of_uint64 (LogRootV1.TreeSize rt) = LogRootV1.TreeSize rt - 2 ^ 64).
  { unfold int64_of_uint64. destruct (LogRootV1.TreeSize rt <? 2 ^ 63) eqn:E; [|reflexivity].
    apply Z.ltb_lt in E. lia. }
  destruct (GetInclusionProofByHash (client t) timeout20 (proofRequest t rt hashValue) s1)
    as [[resp err] s2] eqn:Hrpc.
  destruct (getProofByHash_run sigma UnmarshalBinary V t hashValue s s1 s2 tr1 rt resp err
                               Hroot Hrpc) as (tl & Hrun & Hv & Hr).
  rewrite Hrun. unfold trace_of. simpl.
  split; [exact Hconv|]. split; [rewrite Hconv; lia|]. split.
  - apply in_or_app. right. left. reflexivity.
  - intros leafIndex treeSize hashes rootHash leafHash Hin.
    apply in_app_or in Hin.
    pose proof (root_trace sigma UnmarshalBinary t s) as Htr.
    rewrite Hroot in Htr. unfold trace_of in Htr. simpl in Htr. subst tr1.
    destruct Hin as [[Hin|[]]|[Hin|Hin]]; try discriminate Hin.
    assert (Hf : In (CallVerifyInclusionProof leafIndex treeSize hashes rootHash leafHash)
                    (filter is_verification tl))
      by (apply filter_In; split; [exact Hin|reflexivity]).
    rewrite Hv in Hf. apply in_map_iff in Hf. destruct Hf as (q & Hq & _).
    unfold verificationOf in Hq. inversion Hq. exact Hconv.
Qed.

End MoreProofProperties.

(** ** Further properties of [createAndInitTree] *)

Section MoreTreeProperties.

Variable sigma : Type.
Variable InitLog :
  context.Context -> option Tree.t -> TrillianLogClient sigma -> sigma -> option error * sigma.
Variable adminClient : TrillianAdminClient sigma.
Variable logClient : TrillianLogClient sigma.

Lemma firstLogTree_some_inv (l : list Tree.t) (t : Tree.t) :
  firstLogTree l = Some t ->
  exists l1 l2, l = l1 ++ t :: l2
                /\ Forall (fun x => Tree.TreeType_ x <> TreeType_LOG) l1
                /\ Tree.TreeType_ t = TreeType_LOG.
Proof.
  induction l as [|x l IH]; simpl; intro H; [discriminate H|].
  destruct (Tree.TreeType_ x) eqn:Hx; simpl in H;
    try (destruct (IH H) as (l1 & l2 & -> & Hl1 & Ht);
         exists (x :: l1), l2;
         repeat split; [constructor; [rewrite Hx; discriminate|exact Hl1]|exact Ht]).
  inversion H. subst. exists [], l. repeat split; [constructor|exact Hx].
Qed.

Lemma firstLogTree_no_log (l : list Tree.t) :
  Forall (fun x => Tree.TreeType_ x <> TreeType_LOG) l -> firstLogTree l = None.
Proof.
  intro Hall. destruct (firstLogTree l) as [t|] eqn:Hf; [|reflexivity].
  exfalso. destruct (firstLogTree_some_inv l t Hf) as (l1 & l2 & -> & _ & Ht).
  apply Forall_app in Hall. destruct Hall as [_ Hall]. inversion Hall. contradiction.
Qed.

(** X16. The loop of [createAndInitTree] selects by type and position
    only: it yields [t] exactly when [t] is of type LOG and no tree listed
    before it is, and nothing exactly when no listed tree is of type LOG. *)
Theorem firstLogTree_spec (l : list Tree.t) :
  (forall t, firstLogTree l = Some t
             <-> exists l1 l2, l = l1 ++ t :: l2
                               /\ Forall (fun x => Tree.TreeType_ x <> TreeType_LOG) l1
                               /\ Tree.TreeType_ t = TreeType_LOG)
  /\ (firstLogTree l = None <-> Forall (fun x => Tree.TreeType_ x <> TreeType_LOG) l).
Proof.
  split.
  - intro t. split; [apply firstLogTree_some_inv|].
    intros (l1 & l2 & -> & Hl1 & Ht). apply firstLogTree_first; assumption.
  - split; [apply firstLogTree_none|apply firstLogTree_no_log].
Qed.

(** X17. With no tree of type LOG in the listing, [createAndInitTree]
    asks the authority for one tree: of type LOG, RFC 6962 SHA-256 hashing,
    ECDSA signatures over SHA-256, active, with a root duration of one hour
    and an ECDSA key.  It then initialises what the authority created and
    returns it.  All three calls are made under the caller's context. *)
Theorem createAndInitTree_creates_and_initialises
        (ctx : context.Context) (s s1 s2 s3 : sigma)
        (resp : ListTreesResponse.t) (t : option Tree.t) :
  ListTrees adminClient ctx ListTreesRequest.zero s = ((Some resp, None), s1) ->
  Forall (fun x => Tree.TreeType_ x <> TreeType_LOG) (ListTreesResponse.Tree resp) ->
  CreateTree adminClient ctx createRequest s1 = ((t, None), s2) ->
  InitLog ctx t logClient s2 = (None, s3) ->
  createAndInitTree InitLog ctx adminClient logClient s
  = (Returned (t, None), s3,
     [RpcListTrees ctx ListTreesRequest.zero; RpcCreateTree ctx createRequest;
      CallInitLog ctx t])
  /\ CreateTreeRequest.Tree createRequest
     = Some (Tree.mk 0 TreeType_LOG HashStrategy_RFC6962_SHA256 DigitallySigned_SHA256
                     DigitallySigned_ECDSA TreeState_ACTIVE (3600 * 1000000000))
  /\ CreateTreeRequest.KeySpec_ createRequest = Some Specification_EcdsaParams.
Proof.
  intros HL Hnone HC HI. split; [|split; reflexivity].
  apply firstLogTree_no_log in Hnone.
  unfold createAndInitTree, createRequest in *. unfold_go.
  rewrite HL. simpl. rewrite Hnone. rewrite HC. simpl. rewrite HI. reflexivity.
Qed.

(** X18. When the listing fails, [createAndInitTree] returns that error
    and no tree, whatever the listing carried, and creates nothing. *)
Theorem createAndInitTree_list_failure
        (ctx : context.Context) (s s1 : sigma)
        (trees : option ListTreesResponse.t) (e : error) :
  ListTrees adminClient ctx ListTreesRequest.zero s = ((trees, Some e), s1) ->
  createAndInitTree InitLog ctx adminClient logClient s
  = (Returned (None, Some e), s1, [RpcListTrees ctx ListTreesRequest.zero]).
Proof.
  intro HL. unfold createAndInitTree. unfold_go. rewrite HL. reflexivity.
Qed.

(** X19. When the creation fails, [createAndInitTree] returns that error
    and no tree, and initialises nothing. *)
Theorem createAndInitTree_create_failure
        (ctx : context.Context) (s s1 s2 : sigma)
        (resp : ListTreesResponse.t) (t : option Tree.t) (e : error) :
  ListTrees adminClient ctx ListTreesRequest.zero s = ((Some resp, None), s1) ->
  Forall (fun x => Tree.TreeType_ x <> TreeType_LOG) (ListTreesResponse.Tree resp) ->
  CreateTree adminClient ctx createRequest s1 = ((t, Some e), s2) ->
  let r := createAndInitTree InitLog ctx adminClient logClient s in
  r = (Returned (None, Some e), s2,
       [RpcListTrees ctx ListTreesRequest.zero; RpcCreateTree ctx createRequest])
  /\ filter is_init_log (trace_of r) = [].
Proof.
  intros HL Hnone HC r. subst r.
  apply firstLogTree_no_log in Hnone.
  unfold createAndInitTree, createRequest in *. unfold_go.
  rewrite HL. simpl. rewrite Hnone. rewrite HC. simpl. split; reflexivity.
Qed.

(** X20. When the initialisation of the created tree fails,
    [createAndInitTree] returns that error and no tree, and stops there:
    the initialisation is its last call, nothing is undone. *)
Theorem createAndInitTree_init_failure
        (ctx : context.Context) (s s1 s2 s3 : sigma)
        (resp : ListTreesResponse.t) (t : option Tree.t) (e : error) :
  ListTrees adminClient ctx ListTreesRequest.zero s = ((Some resp, None), s1) ->
  Forall (fun x => Tree.TreeType_ x <> TreeType_LOG) (ListTreesResponse.Tree resp) ->
  CreateTree adminClient ctx createRequest s1 = ((t, None), s2) ->
  InitLog ctx t logClient s2 = (Some e, s3) ->
  createAndInitTree InitLog ctx adminClient logClient s
  = (Returned (None, Some e), s3,
     [RpcListTrees ctx ListTreesRequest.zero; RpcCreateTree ctx createRequest;
      CallInitLog ctx t]).
Proof.
  intros HL Hnone HC HI.
  apply firstLogTree_no_log in Hnone.
  unfold createAndInitTree, createRequest in *. unfold_go.
  rewrite HL. simpl. rewrite Hnone. rewrite HC. simpl. rewrite HI. reflexivity.
Qed.

(** X21. A listing that hands back neither an answer nor an error makes
    [createAndInitTree] panic, before anything is created. *)
Theorem createAndInitTree_nil_listing_panics (ctx : context.Context) (s s1 : sigma) :
  ListTrees adminClient ctx ListTreesRequest.zero s = ((None, None), s1) ->
  createAndInitTree InitLog ctx adminClient logClient s
  = (Panicked, s1, [RpcListTrees ctx ListTreesRequest.zero]).
Proof.
  intro HL. unfold createAndInitTree. unfold_go. rewrite HL. reflexivity.
Qed.

Variable visible : sigma -> list Tree.t.
Hypothesis scope : AdminScope InitLog adminClient visible.

(** X22. In one administrative scope, the tree left behind by a failed
    initialisation is taken up by the next call as it is: a call whose
    listing succeeds returns that tree after the listing alone, without
    initialising it. *)
Theorem createAndInitTree_reuses_uninitialised_tree
        (ctx ctx' : context.Context) (s s1 s2 s3 s4 : sigma)
        (resp resp' : ListTreesResponse.t) (t : Tree.t) (e : error) :
  ListTrees adminClient ctx ListTreesRequest.zero s = ((Some resp, None), s1) ->
  Forall (fun x => Tree.TreeType_ x <> TreeType_LOG) (ListTreesResponse.Tree resp) ->
  CreateTree adminClient ctx createRequest s1 = ((Some t, None), s2) ->
  InitLog ctx (Some t) logClient s2 = (Some e, s3) ->
  ListTrees adminClient ctx' ListTreesRequest.zero s3 = ((Some resp', None), s4) ->
  let r := createAndInitTree InitLog ctx' adminClient logClient s3 in
  r = (Returned (Some t, None), s4, [RpcListTrees ctx' ListTreesRequest.zero])
  /\ filter is_init_log (trace_of r) = [].
Proof.
  intros HL Hnone HC HI HL' r. subst r.
  destruct (list_shows scope _ _ _ _ _ HL) as [Hshow Hkeep].
  destruct (create_adds scope _ _ _ _ _ HC) as [(l1 & l2 & Hbefore & Hafter) Htype].
  destruct (list_shows scope _ _ _ _ _ HL') as [Hshow' _].
  rewrite (createAndInitTree_found sigma InitLog adminClient logClient ctx' s3 s4 resp' t HL').
  - split; reflexivity.
  - rewrite Hshow', (init_keeps scope _ _ _ _ _ _ HI), Hafter.
    apply firstLogTree_inserted.
    + rewrite <- Hbefore, Hkeep, <- Hshow. apply firstLogTree_no_log. exact Hnone.
    + rewrite (Htype newLogTree eq_refl). reflexivity.
Qed.

(** X23. In one administrative scope, a tree that [createAndInitTree]
    returns is of type LOG and is among the trees of the scope when the
    call ends. *)
Theorem createAndInitTree_returns_log_tree
        (ctx : context.Context) (s s1 : sigma) (t : Tree.t) (tr1 : list event) :
  createAndInitTree InitLog ctx adminClient logClient s = (Returned (Some t, None), s1, tr1) ->
  Tree.TreeType_ t = TreeType_LOG /\ In t (visible s1).
Proof.
  intro H.
  pose proof (createAndInitTree_leaves_first sigma InitLog adminClient logClient visible
                                             scope ctx s s1 t tr1 H) as Hf.
  apply firstLogTree_some_inv in Hf.
  destruct Hf as (l1 & l2 & Hl & _ & Ht). split; [exact Ht|].
  rewrite Hl. apply in_or_app. right. left. reflexivity.
Qed.

End MoreTreeProperties.

(** ** The further properties at work on the in-memory authority *)

Lemma getLatest_response_xor_error_witness :
  (exists r, outcome_of (getLatest Stub.tc 0 Stub.fresh) = Returned (Some r, None)
             /\ Response.status r = codes.OK)
  /\ outcome_of (getLatest Stub.tc 0 Stub.down)
     = Returned (None, Some (GrpcError codes.Unavailable "connection refused")).
Proof.
  split.
  - destruct (getLatest_response_xor_error _ Stub.tc 0 Stub.fresh)
      as (_ & rsp & Hout & _ & Hok).
    destruct (Hok eq_refl) as (r & Hr & Hst & _). subst rsp.
    exists r. split; [exact Hout|exact Hst].
  - destruct (getLatest_response_xor_error _ Stub.tc 0 Stub.down)
      as (_ & rsp & Hout & Herr & _).
    rewrite (Herr ltac:(discriminate)) in Hout. exact Hout.
Defined.

Lemma leaf_operations_return_nil_error_witness :
  (exists rsp, outcome_of (addLeaf Stub.tc Stub.leafA Stub.fresh) = Returned (rsp, None)
               /\ rsp <> None)
  /\ (exists rsp, outcome_of (getLeafByHash Stub.tc [Stub.leafA] Stub.fresh)
                  = Returned (rsp, None)
                  /\ rsp <> None)
  /\ (exists rsp, outcome_of (getLeafByIndex Stub.tc [0] Stub.down) = Returned (rsp, None)
                  /\ rsp <> None).
Proof.
  split; [|split]; eexists; (split; [reflexivity|]).
  - exact (proj2 (proj1 (leaf_operations_return_nil_error
                           _ Stub.tc Stub.fresh Stub.leafA [Stub.leafA] [0] _ _) eq_refl)).
  - exact (proj2 (proj1 (proj2 (leaf_operations_return_nil_error
                                  _ Stub.tc Stub.fresh Stub.leafA [Stub.leafA] [0] _ _))
                        eq_refl)).
  - exact (proj2 (proj2 (proj2 (leaf_operations_return_nil_error
                                  _ Stub.tc Stub.down Stub.leafA [Stub.leafA] [0] _ _))
                        eq_refl)).
Defined.

Lemma getLeafByIndex_always_returns_witness :
  exists r, outcome_of (getLeafByIndex Stub.tc [0] Stub.fresh) = Returned (Some r, None)
            /\ Response.status r = codes.OK.
Proof.
  destruct (getLeafByIndex_always_returns _ Stub.tc [0] Stub.fresh)
    as (r & Hout & _ & _ & Hok & _).
  exists r. split; [exact Hout|exact (Hok eq_refl)].
Defined.

Lemma getLeafByHash_exits_iff_error_witness :
  outcome_of (getLeafByHash Stub.tc [Stub.leafA] Stub.down) = Exited
  /\ exists rsp, outcome_of (getLeafByHash Stub.tc [Stub.leafA] Stub.fresh)
                 = Returned (Some rsp, None)
                 /\ Response.status rsp = codes.OK.
Proof.
  split.
  - destruct (getLeafByHash_exits_iff_error _ Stub.tc [Stub.leafA] Stub.down) as (Hiff & _).
    apply Hiff. discriminate.
  - destruct (getLeafByHash_exits_iff_error _ Stub.tc [Stub.leafA] Stub.fresh)
      as (_ & _ & Hok).
    destruct (Hok eq_refl) as (rsp & Hout & Hst & _).
    exists rsp. split; [exact Hout|exact Hst].
Defined.

Lemma addLeaf_panics_iff_nil_response_witness :
  outcome_of (addLeaf Stub.tc Stub.leafA Stub.down) = Panicked
  /\ outcome_of (addLeaf Stub.tc Stub.leafA Stub.fresh) <> Panicked.
Proof.
  split.
  - destruct (addLeaf_panics_iff_nil_response _ Stub.tc Stub.leafA Stub.down) as (Hiff & _).
    apply Hiff. reflexivity.
  - destruct (addLeaf_panics_iff_nil_response _ Stub.tc Stub.leafA Stub.fresh) as (Hiff & _).
    intro H. apply Hiff in H. discriminate H.
Defined.

Lemma addLeaf_status_field_witness :
  (exists rsp, outcome_of (addLeaf Stub.tc Stub.leafA Stub.oneLeaf) = Returned (Some rsp, None)
               /\ Response.status rsp = 6)
  /\ (exists rsp, outcome_of (addLeaf Stub.tc Stub.leafA Stub.fresh) = Returned (Some rsp, None)
                  /\ Response.status rsp = codes.OK).
Proof.
  split.
  - destruct (addLeaf_status_field _ Stub.tc Stub.leafA Stub.oneLeaf Stub.oneLeaf _ None eq_refl)
      as (rsp & Hout & _ & _ & Hcode).
    exists rsp. split; [exact Hout|].
    destruct (Hcode _ _ eq_refl eq_refl ltac:(simpl; lia)) as (_ & Hpos & _).
    exact (Hpos ltac:(simpl; lia)).
  - destruct (addLeaf_status_field _ Stub.tc Stub.leafA Stub.fresh _ _ None eq_refl)
      as (rsp & Hout & _ & Habsent & _).
    exists rsp. split; [exact Hout|]. exact (Habsent _ eq_refl eq_refl).
Defined.

Lemma root_panics_iff_witness :
  outcome_of (root Stub.unmarshalBinary Stub.tcBare Stub.fresh) = Panicked
  /\ outcome_of (root Stub.unmarshalBinary Stub.tc Stub.oneLeaf) <> Panicked.
Proof.
  split.
  - destruct (root_panics_iff _ Stub.unmarshalBinary Stub.tcBare Stub.fresh) as (Hiff & _).
    apply Hiff. split; [reflexivity|]. right. eexists. split; reflexivity.
  - destruct (root_panics_iff _ Stub.unmarshalBinary Stub.tc Stub.oneLeaf) as (Hiff & _).
    intro H. apply Hiff in H. destruct H as [_ [H|(resp & H & H')]]; [discriminate H|].
    inversion H. subst resp. discriminate H'.
Defined.

Lemma root_result_from_blob_only_witness :
  root Stub.unmarshalBinary Stub.tc Stub.oneLeaf
  = (Returned (LogRootV1.mk 1 Stub.leafA 0 0 [], None), Stub.oneLeaf,
     [RpcGetLatestSignedLogRoot context.Background (rootRequest Stub.tc)]).
Proof.
  exact (root_result_from_blob_only _ Stub.unmarshalBinary Stub.tc Stub.oneLeaf Stub.oneLeaf
                                    _ _ eq_refl eq_refl).
Defined.

Lemma getProofByHash_root_failure_witness :
  outcome_of (getProofByHash Stub.unmarshalBinary Stub.verifyInclusionProof
                             Stub.tc Stub.leafA Stub.fresh)
  = Returned (Some Response.zero, Some (PlainError "short root blob"))
  /\ outcome_of (getProofByHash Stub.unmarshalBinary Stub.verifyInclusionProof
                                Stub.tcBare Stub.leafA Stub.fresh)
     = Panicked.
Proof.
  split.
  - destruct (getProofByHash_root_failure _ Stub.unmarshalBinary Stub.verifyInclusionProof
                                          Stub.tc Stub.leafA Stub.fresh) as [Herr _].
    rewrite (Herr _ _ _ _ eq_refl). reflexivity.
  - destruct (getProofByHash_root_failure _ Stub.unmarshalBinary Stub.verifyInclusionProof
                                          Stub.tcBare Stub.leafA Stub.fresh) as [_ Hpanic].
    rewrite (Hpanic _ _ eq_refl). reflexivity.
Defined.

Lemma getProofByHash_failed_request_is_status_witness :
  exists rsp,
    outcome_of (getProofByHash Stub.unmarshalBinary Stub.verifyInclusionProof
                               Stub.tc Stub.leafA Stub.slowOneLeaf)
    = Returned (Some rsp, None)
    /\ Response.status rsp = codes.DeadlineExceeded
    /\ Response.getProofResult rsp = None.
Proof.
  destruct (getProofByHash_failed_request_is_status
              _ Stub.unmarshalBinary Stub.verifyInclusionProof
              Stub.tc Stub.leafA Stub.slowOneLeaf Stub.slowOneLeaf Stub.slowOneLeaf _ _
              (Some (GrpcError codes.DeadlineExceeded "context deadline exceeded"))
              eq_refl eq_refl) as (_ & rsp & Hout & Hst & Hnone).
  exists rsp. auto.
Defined.

Lemma getProofByHash_stops_at_first_refusal_witness :
  List.length
    (filter is_verification
            (trace_of (getProofByHash Stub.unmarshalBinary Stub.verifyInclusionProof
                                      Stub.tc Stub.leafA Stub.mixedProofs)))
  = 2%nat.
Proof.
  destruct (getProofByHash_stops_at_first_refusal
              _ Stub.unmarshalBinary Stub.verifyInclusionProof
              Stub.tc Stub.leafA Stub.mixedProofs Stub.mixedProofs Stub.mixedProofs _ _ _ None
              [Stub.goodProof] [Stub.goodProof] Stub.badProof _
              eq_refl eq_refl eq_refl ltac:(repeat constructor) eq_refl) as (_ & Htr).
  rewrite Htr. reflexivity.
Defined.

Lemma getProofByHash_response_never_nil_witness :
  exists rsp, outcome_of (getProofByHash Stub.unmarshalBinary Stub.verifyInclusionProof
                                         Stub.tc Stub.leafB Stub.oneLeaf)
              = Returned (rsp, Some (PlainError "calculated root does not match"))
              /\ rsp = Some Response.zero.
Proof.
  eexists. split; [reflexivity|].
  apply (getProofByHash_response_never_nil
           _ Stub.unmarshalBinary Stub.verifyInclusionProof Stub.tc Stub.leafB Stub.oneLeaf
           _ _ eq_refl).
  discriminate.
Defined.

Lemma getProofByHash_large_tree_size_witness :
  In (RpcGetInclusionProofByHash
        timeout20
        {| GetInclusionProofByHashRequest.LogId := 1;
           GetInclusionProofByHashRequest.LeafHash := Stub.leafA;
           GetInclusionProofByHashRequest.TreeSize := - 2 ^ 63 |})
     (trace_of (getProofByHash Stub.unmarshalHuge Stub.verifyInclusionProof
                               Stub.tc Stub.leafA Stub.oneLeaf)).
Proof.
  destruct (getProofByHash_large_tree_size
              _ Stub.unmarshalHuge Stub.verifyInclusionProof
              Stub.tc Stub.leafA Stub.oneLeaf Stub.oneLeaf _ _ eq_refl
              ltac:(simpl; lia)) as (_ & _ & Hin & _).
  exact Hin.
Defined.

Lemma firstLogTree_spec_witness :
  firstLogTree [Stub.mapTree; Stub.tree1; Stub.mapTree] = Some Stub.tree1
  /\ firstLogTree [Stub.mapTree] = None.
Proof.
  split.
  - apply (proj1 (firstLogTree_spec _)).
    exists [Stub.mapTree], [Stub.mapTree]. repeat split.
    constructor; [discriminate|constructor].
  - apply (proj2 (firstLogTree_spec _)). constructor; [discriminate|constructor].
Defined.

Lemma createAndInitTree_creates_and_initialises_witness :
  createAndInitTree Stub.initLog context.Background Stub.adminClient Stub.logClient Stub.fresh
  = (Returned (Some Stub.tree1, None), Stub.bootstrapped,
     [RpcListTrees context.Background ListTreesRequest.zero;
      RpcCreateTree context.Background createRequest;
      CallInitLog context.Background (Some Stub.tree1)]).
Proof.
  exact (proj1 (createAndInitTree_creates_and_initialises
                  _ Stub.initLog Stub.adminClient Stub.logClient context.Background
                  Stub.fresh Stub.fresh Stub.bootstrapped Stub.bootstrapped _ _
                  eq_refl ltac:(constructor) eq_refl eq_refl)).
Defined.

Lemma createAndInitTree_list_failure_witness :
  outcome_of (createAndInitTree Stub.initLog context.Background
                                Stub.adminClient Stub.logClient Stub.down)
  = Returned (None, Some (GrpcError codes.Unavailable "connection refused")).
Proof.
  rewrite (createAndInitTree_list_failure
             _ Stub.initLog Stub.adminClient Stub.logClient context.Background
             Stub.down Stub.down None _ eq_refl).
  reflexivity.
Defined.

Lemma createAndInitTree_create_failure_witness :
  outcome_of (createAndInitTree Stub.initLog context.Background
                                Stub.readOnlyAdmin Stub.logClient Stub.fresh)
  = Returned (None, Some (GrpcError codes.PermissionDenied "creation not allowed")).
Proof.
  destruct (createAndInitTree_create_failure
              _ Stub.initLog Stub.readOnlyAdmin Stub.logClient context.Background
              Stub.fresh Stub.fresh Stub.fresh _ None _
              eq_refl ltac:(constructor) eq_refl) as [Hrun _].
  rewrite Hrun. reflexivity.
Defined.

Lemma createAndInitTree_init_failure_witness :
  createAndInitTree Stub.initLog context.Background
                    Stub.adminClient Stub.logClient Stub.brokenInit
  = (Returned (None, Some (PlainError "could not initialise the log")),
     Stub.halfBootstrapped,
     [RpcListTrees context.Background ListTreesRequest.zero;
      RpcCreateTree context.Background createRequest;
      CallInitLog context.Background (Some Stub.tree1)]).
Proof.
  exact (createAndInitTree_init_failure
           _ Stub.initLog Stub.adminClient Stub.logClient context.Background
           Stub.brokenInit Stub.brokenInit Stub.halfBootstrapped Stub.halfBootstrapped _ _ _
           eq_refl ltac:(constructor) eq_refl eq_refl).
Defined.

Lemma createAndInitTree_nil_listing_panics_witness :
  outcome_of (createAndInitTree Stub.initLog context.Background
                                Stub.silentAdmin Stub.logClient Stub.fresh)
  = Panicked.
Proof.
  rewrite (createAndInitTree_nil_listing_panics
             _ Stub.initLog Stub.silentAdmin Stub.logClient context.Background
             Stub.fresh Stub.fresh eq_refl).
  reflexivity.
Defined.

Lemma createAndInitTree_reuses_uninitialised_tree_witness :
  createAndInitTree Stub.initLog context.Background
                    Stub.adminClient Stub.logClient Stub.halfBootstrapped
  = (Returned (Some Stub.tree1, None), Stub.halfBootstrapped,
     [RpcListTrees context.Background ListTreesRequest.zero]).
Proof.
  exact (proj1 (createAndInitTree_reuses_uninitialised_tree
                  _ Stub.initLog Stub.adminClient Stub.logClient Stub.trees stub_admin_scope
                  context.Background context.Background
                  Stub.brokenInit Stub.brokenInit Stub.halfBootstrapped Stub.halfBootstrapped
                  Stub.halfBootstrapped _ _ Stub.tree1 _
                  eq_refl ltac:(constructor) eq_refl eq_refl eq_refl)).
Defined.

Lemma createAndInitTree_returns_log_tree_witness :
  Tree.TreeType_ Stub.tree1 = TreeType_LOG /\ In Stub.tree1 (Stub.trees Stub.bootstrapped).
Proof.
  exact (createAndInitTree_returns_log_tree
           _ Stub.initLog Stub.adminClient Stub.logClient Stub.trees stub_admin_scope
           context.Background Stub.fresh Stub.bootstrapped Stub.tree1 _ eq_refl).
Defined.

Section DeadlineProperties.

Variable sigma : Type.
Variable UnmarshalBinary : bytes -> LogRootV1.t * option error.
Variable VerifyInclusionProof : Z -> Z -> list bytes -> bytes -> bytes -> option error.

Ltac under_timeout :=
  let e := fresh "e" in
  let Hin := fresh "Hin" in
  let Hrpc := fresh "Hrpc" in
  intros e Hin Hrpc; simpl in Hin;
  repeat (destruct Hin as [Hin|Hin];
          [subst e; simpl in Hrpc; try discriminate Hrpc; reflexivity|]);
  contradiction.

(** X24. The lookup by index, the fetch of a latest root of a given size
    and the fetch of a consistency proof make their remote call under a
    context that expires after 20 seconds, and so does [getProofByHash] for
    every remote call it makes after the root fetch. *)
Theorem later_calls_under_timeout (t : TrillianClient sigma) (s : sigma)
        (indexes : list Z) (leafSizeInt firstSize lastSize : Z) (hashValue : bytes) :
  context.Deadline timeout20 = Some (20 * time.Second)
  /\ (forall e, In e (trace_of (getLeafByIndex t indexes s)) ->
                is_rpc e = true -> rpc_context e = Some timeout20)
  /\ (forall e, In e (trace_of (getLatest t leafSizeInt s)) ->
                is_rpc e = true -> rpc_context e = Some timeout20)
  /\ (forall e, In e (trace_of (getConsistencyProof t firstSize lastSize s)) ->
                is_rpc e = true -> rpc_context e = Some timeout20)
  /\ (forall tl,
         trace_of (getProofByHash UnmarshalBinary VerifyInclusionProof t hashValue s)
         = RpcGetLatestSignedLogRoot context.Background (rootRequest t) :: tl ->
         forall e, In e tl -> is_rpc e = true -> rpc_context e = Some timeout20).
Proof.
  split; [reflexivity|].
  split.
  { unfold getLeafByIndex. unfold_go.
    destruct (GetLeavesByIndex _ _ _ s) as [[resp err] s1]. simpl. under_timeout. }
  split.
  { unfold getLatest. unfold_go.
    destruct (GetLatestSignedLogRoot _ _ _ s) as [[resp err] s1].
    destruct err; simpl; under_timeout. }
  split.
  { unfold getConsistencyProof. unfold_go.
    destruct (GetConsistencyProof _ _ _ s) as [[resp err] s1].
    destruct err; simpl; under_timeout. }
  intros tl Htl e Hin Hrpc.
  destruct (getProofByHash_cases sigma UnmarshalBinary VerifyInclusionProof t hashValue s)
    as [[Htr _]|(rt & s1 & s2 & resp & err & tl' & _ & _ & Hrun & _ & Hr)].
  - rewrite Htr in Htl. inversion Htl. subst tl. contradiction.
  - rewrite Hrun in Htl. unfold trace_of in Htl. simpl in Htl. inversion Htl. subst tl.
    destruct Hin as [<-|Hin]; [reflexivity|].
    rewrite (filter_nil_false _ _ _ Hr Hin) in Hrpc. discriminate Hrpc.
Qed.

End DeadlineProperties.

Lemma later_calls_under_timeout_witness :
  rpc_context (RpcGetInclusionProofByHash
                 timeout20
                 (proofRequest Stub.tc (LogRootV1.mk 1 Stub.leafA 0 0 []) Stub.leafA))
  = Some timeout20.
Proof.
  destruct (later_calls_under_timeout
              _ Stub.unmarshalBinary Stub.verifyInclusionProof Stub.tc Stub.oneLeaf
              [0] 0 0 0 Stub.leafA) as (_ & _ & _ & _ & Hproof).
  apply (Hproof _ eq_refl); [left; reflexivity|reflexivity].
Defined.
